(** * Bugsink: issue state managers, timed SQLite cursor, project forms

    A shallow embedding of
    - [issues/models.py]: [Issue], [add_periods_to_datetime],
      [IssueStateManager], [IssueQuerysetStateManager],
      [create_unmute_issue_handler];
    - [bugsink/timed_sqlite_backend/base.py]: [limit_runtime],
      [SQLiteCursorWrapper];
    - [projects/forms.py]: [ProjectMemberInviteForm],
      [MyProjectMembershipForm], [ProjectForm].

    Python code that mutates objects and may raise is written in a state monad
    with exceptions: a raised exception keeps the state reached so far. The
    database is SQLite, the backend the repository patches: an [F] expression
    with [+] is SQLite's arithmetic on the stored text. *)

From Stdlib Require Import ZArith String Ascii List Bool Lia PrimFloat Uint63 DecimalString.
From stdpp Require Import base option list gmap strings.

Local Open Scope Z_scope.
Local Open Scope string_scope.
Local Open Scope list_scope.

(** ** Exceptions and the state monad *)

Inductive exn : Type :=
| IncongruentStateException (msg : string)
| Exception (msg : string)
| KeyError
| AttributeError
| ValueError
| TypeError
| OverflowError
| DoesNotExist
| NotImplementedError (msg : string)
| ValidationError (msg : string)
| OperationalError (msg : string).

Inductive outcome (A : Type) : Type :=
| Return (a : A)
| Raise (e : exn).
Arguments Return {A} a.
Arguments Raise {A} e.

Definition M (S A : Type) : Type := S → outcome A * S.

Global Instance M_ret {S} : MRet (M S) := λ A a s, (Return a, s).

Global Instance M_bind {S} : MBind (M S) := λ A B k m s,
  match m s with
  | (Return a, s') => k a s'
  | (Raise e, s') => (Raise e, s')
  end.

Definition raise {S A} (e : exn) : M S A := λ s, (Raise e, s).
Definition get {S} : M S S := λ s, (Return s, s).
Definition modify {S} (f : S → S) : M S unit := λ s, (Return tt, f s).

(** [for x in xs: body x] *)
Fixpoint for_each {S A} (xs : list A) (body : A → M S unit) : M S unit :=
  match xs with
  | [] => mret tt
  | x :: xs' => body x;; for_each xs' body
  end.


(** ** Data model ([issues/models.py]) *)

(** Primary keys: the UUID as a number. *)
Abbreviation IssueId := N (only parsing).

(** [datetime.datetime] in UTC, by its components. *)
Record datetime : Type := {
  year : Z; month : Z; day : Z; hour : Z; minute : Z; second : Z; microsecond : Z
}.

(** [time.struct_time], the fields [timetuple()] copies from the datetime. *)
Record struct_time : Type := {
  tm_year : Z; tm_mon : Z; tm_mday : Z; tm_hour : Z; tm_min : Z; tm_sec : Z
}.

Definition timetuple (dt : datetime) : struct_time :=
  {| tm_year := year dt; tm_mon := month dt; tm_mday := day dt;
     tm_hour := hour dt; tm_min := minute dt; tm_sec := second dt |}.

(** Modelled from the spec: [projects.models.Project] is not among the
    sources. The state managers read [alert_on_unmute] and, in
    [resolve_by_latest], the version of [get_latest_release()]; the latter is
    [None] when that call raises. *)
Record Project : Type := {
  alert_on_unmute : bool;
  latest_release_version : option string
}.

(** The fields of [Issue] the state managers read or write. [project] is the
    foreign key followed ([None] after [SET_NULL]). *)
Record Issue : Type := {
  id : IssueId;
  project : option Project;
  is_resolved : bool;
  is_resolved_by_next_release : bool;
  fixed_at : string;
  is_muted : bool;
  unmute_on_volume_based_conditions : string;
  unmute_after : option datetime
}.

Definition set_is_resolved (b : bool) (i : Issue) : Issue :=
  {| id := id i; project := project i; is_resolved := b;
     is_resolved_by_next_release := is_resolved_by_next_release i;
     fixed_at := fixed_at i; is_muted := is_muted i;
     unmute_on_volume_based_conditions := unmute_on_volume_based_conditions i;
     unmute_after := unmute_after i |}.

Definition set_is_resolved_by_next_release (b : bool) (i : Issue) : Issue :=
  {| id := id i; project := project i; is_resolved := is_resolved i;
     is_resolved_by_next_release := b;
     fixed_at := fixed_at i; is_muted := is_muted i;
     unmute_on_volume_based_conditions := unmute_on_volume_based_conditions i;
     unmute_after := unmute_after i |}.

Definition set_fixed_at (s : string) (i : Issue) : Issue :=
  {| id := id i; project := project i; is_resolved := is_resolved i;
     is_resolved_by_next_release := is_resolved_by_next_release i;
     fixed_at := s; is_muted := is_muted i;
     unmute_on_volume_based_conditions := unmute_on_volume_based_conditions i;
     unmute_after := unmute_after i |}.

Definition set_is_muted (b : bool) (i : Issue) : Issue :=
  {| id := id i; project := project i; is_resolved := is_resolved i;
     is_resolved_by_next_release := is_resolved_by_next_release i;
     fixed_at := fixed_at i; is_muted := b;
     unmute_on_volume_based_conditions := unmute_on_volume_based_conditions i;
     unmute_after := unmute_after i |}.

Definition set_unmute_on_volume_based_conditions (s : string) (i : Issue) : Issue :=
  {| id := id i; project := project i; is_resolved := is_resolved i;
     is_resolved_by_next_release := is_resolved_by_next_release i;
     fixed_at := fixed_at i; is_muted := is_muted i;
     unmute_on_volume_based_conditions := s;
     unmute_after := unmute_after i |}.

Definition set_unmute_after (d : option datetime) (i : Issue) : Issue :=
  {| id := id i; project := project i; is_resolved := is_resolved i;
     is_resolved_by_next_release := is_resolved_by_next_release i;
     fixed_at := fixed_at i; is_muted := is_muted i;
     unmute_on_volume_based_conditions := unmute_on_volume_based_conditions i;
     unmute_after := d |}.

(** The persisted state fields compared between the two managers. *)
Definition persisted_fields (i : Issue)
  : bool * bool * string * bool * string * option datetime :=
  (is_resolved i, is_resolved_by_next_release i, fixed_at i,
   is_muted i, unmute_on_volume_based_conditions i, unmute_after i).

(** ** Line-separated lists ([issues/utils.py]) *)

Definition LF : string := String "010"%char EmptyString.

(** [s.split(LF)], with [cur] the piece being read. *)
Fixpoint split_lines (cur s : string) : list string :=
  match s with
  | EmptyString => [cur]
  | String c s' =>
      if Ascii.eqb c "010"%char then cur :: split_lines EmptyString s'
      else split_lines (cur +:+ String c EmptyString) s'
  end.

(** Modelled from the spec: [issues/utils.py] is not among the sources.
    [fixed_at] is a line-separated list (models.py:37) in which every entry is
    followed by a newline (models.py:267): parsing drops the empty piece after
    the last newline, serialising writes each entry and a newline. *)
Definition parse_lines (s : string) : list string :=
  removelast (split_lines EmptyString s).

(** Modelled from the spec: the inverse of [parse_lines] in [issues/utils.py],
    which is not among the sources: every entry followed by a newline. *)
Definition serialize_lines (l : list string) : string :=
  fold_right (λ e acc, e +:+ LF +:+ acc) EmptyString l.

Definition get_fixed_at (i : Issue) : list string := parse_lines (fixed_at i).

Definition add_fixed_at (release_version : string) (i : Issue) : Issue :=
  let fixed_at := get_fixed_at i in
  if bool_decide (release_version ∈ fixed_at) then i
  else set_fixed_at (serialize_lines (fixed_at ++ [release_version])) i.

(** ** The period-counter registry ([bugsink/registry.py]) *)

(** Modelled from the spec: [bugsink/registry.py] is not among the sources;
    [UNMUTE_PURPOSE] is the tag the unmute listeners are registered under. *)
Definition UNMUTE_PURPOSE : string := "unmute".

(** The closures stored as [when_becomes_true]: the one returned by
    [create_unmute_issue_handler], or a listener of some other kind. *)
Inductive Handler : Type :=
| unmute_closure (issue_id : IssueId)
| other_closure (tag : N).

Module VolumeBasedCondition.

(** Modelled from the spec: [bugsink/volume_based_condition.py] is not among
    the sources; [set_unmute_handlers] reads these three attributes. *)
Record t : Type := mk { period : string; nr_of_periods : Z; volume : Z }.

End VolumeBasedCondition.

Module PeriodCounter.

(** Modelled from the spec: what [add_event_listener] is given in
    [set_unmute_handlers], and the state it returns. *)
Record EventListener : Type := {
  period_name : string;
  nr_of_periods : Z;
  gte_threshold : Z;
  when_becomes_true : Handler;
  purpose : string;
  state : bool
}.

(** Modelled from the spec: [bugsink/period_counter.py] is not among the
    sources. The spec has it track rolling event counts and evaluate
    threshold conditions at arbitrary points in time: [counted tup p n] is
    the number of events in the [n] periods [p] ending at [tup], and a
    condition is true when that count has reached its threshold. *)
Record t : Type := {
  counted : struct_time → string → Z → Z;
  event_listeners : list EventListener
}.

(** The counter with its listeners replaced. *)
Definition with_listeners (ls : list EventListener) (pc : t) : t :=
  {| counted := counted pc; event_listeners := ls |}.

(** Modelled from the spec: [add_event_listener] of
    [bugsink/period_counter.py], which is not among the sources. It registers
    the listener and returns whether its condition is true at [tup]
    (models.py:220-234). *)
Definition add_event_listener (period_name : string) (nr_of_periods gte_threshold : Z)
    (when_becomes_true : Handler) (tup : struct_time) (purpose : string)
    : M t bool := λ pc,
  let initial_state := (gte_threshold <=? counted pc tup period_name nr_of_periods)%Z in
  (Return initial_state,
   with_listeners
     (event_listeners pc ++
        [ {| PeriodCounter.period_name := period_name;
             PeriodCounter.nr_of_periods := nr_of_periods;
             PeriodCounter.gte_threshold := gte_threshold;
             PeriodCounter.when_becomes_true := when_becomes_true;
             PeriodCounter.purpose := purpose;
             state := initial_state |} ]) pc).

(** Modelled from the spec: [remove_event_listener] of
    [bugsink/period_counter.py], which is not among the sources. It drops the
    listeners registered under [purpose] (models.py:193-201). *)
Definition remove_event_listener (purpose : string) : M t unit := λ pc,
  (Return tt,
   with_listeners
     (filter (λ l, PeriodCounter.purpose l ≠ purpose) (event_listeners pc)) pc).

End PeriodCounter.

(** What lives in the process next to the database: the registry's [by_issue]
    dictionary and the queue of [send_unmute_alert.delay] calls. *)
Record Process : Type := {
  by_issue : gmap IssueId PeriodCounter.t;
  alert_queue : list IssueId
}.

(** The process with another registry. *)
Definition set_by_issue (m : gmap IssueId PeriodCounter.t) (p : Process) : Process :=
  {| by_issue := m; alert_queue := alert_queue p |}.

(** [get_pc_registry().by_issue[issue_id]] followed by calls on that counter:
    the lookup raises [KeyError] when the key is absent, and the counter is
    mutated in place, also when a call on it raises. *)
Definition on_issue_pc {A} (issue_id : IssueId) (m : M PeriodCounter.t A) : M Process A := λ p,
  match by_issue p !! issue_id with
  | None => (Raise KeyError, p)
  | Some pc => let '(r, pc') := m pc in (r, set_by_issue (<[issue_id := pc']> (by_issue p)) p)
  end.

(** [send_unmute_alert.delay(issue_id)] *)
Definition send_unmute_alert_delay (issue_id : IssueId) : M Process unit :=
  modify (λ p, {| by_issue := by_issue p; alert_queue := alert_queue p ++ [issue_id] |}).

(** The listeners registered for an issue under [UNMUTE_PURPOSE]. *)
Definition unmute_listeners (p : Process) (issue_id : IssueId) : list PeriodCounter.EventListener :=
  match by_issue p !! issue_id with
  | None => []
  | Some pc => filter (λ l, PeriodCounter.purpose l = UNMUTE_PURPOSE) (PeriodCounter.event_listeners pc)
  end.

(** ** Numbers in SQLite

    The arithmetic operators of SQLite read a text operand as a number: the
    number in front of the text, 0 when there is none. *)

Module sqlite.

(** The storage class of a number. *)
Inductive numeric : Type :=
| INTEGER (i : Z)
| REAL (r : float).

Definition is_space (c : ascii) : bool :=
  existsb (Ascii.eqb c) [" "; "009"; "010"; "011"; "012"; "013"]%char.

Definition digit (c : ascii) : option Z :=
  let n := Z.of_N (N_of_ascii c) in
  if ((48 <=? n) && (n <=? 57))%Z then Some (n - 48) else None.

Fixpoint skip_spaces (s : string) : string :=
  match s with
  | String c s' => if is_space c then skip_spaces s' else s
  | EmptyString => s
  end.

(** The digits in front of a text as a number, [None] without a digit, and
    the text behind them. *)
Fixpoint digits (acc : option Z) (s : string) : option Z * string :=
  match s with
  | String c s' =>
      match digit c with
      | Some d => digits (Some (10 * default 0 acc + d)) s'
      | None => (acc, s)
      end
  | EmptyString => (acc, s)
  end.

Definition int64 (z : Z) : bool := ((- 2 ^ 63 <=? z) && (z <? 2 ^ 63))%Z.

(** The texts that are read as an integer without further ado: white space,
    a sign, and then either digits that fit 64 bits and that neither a point
    nor an exponent follows, or nothing that starts a number, which reads
    as 0. The other texts, with a point or an exponent or too many digits,
    are [None] here. *)
Definition integer_prefix (s : string) : option Z :=
  let s := skip_spaces s in
  let '(negative, s) :=
    match s with
    | String "-" s' => (true, s')
    | String "+" s' => (false, s')
    | _ => (false, s)
    end in
  match digits None s with
  | (None, String "." _) => None
  | (None, _) => Some 0
  | (Some _, String "." _) | (Some _, String "e" _) | (Some _, String "E" _) => None
  | (Some n, _) => let z := if negative : bool then - n else n in
                   if int64 z then Some z else None
  end.

(** An integer as a text. *)
Definition decimal (z : Z) : string := NilZero.string_of_int (Z.to_int z).

End sqlite.

(** ** Code outside the sources

    [dateutil], [json] and SQLite are not part of the repository, and
    [issues/utils.py] and [bugsink/volume_based_condition.py] are not among
    the sources; the development is parametric in what they compute.
    - [relativedelta_add dt kw n] is [dt + relativedelta(kw=n)] for the
      keyword named [kw], or the exception it raises: [ValueError] or
      [OverflowError] when the result leaves the range of [datetime].
    - [conditions_from_json s] is the list of
      [VolumeBasedCondition.from_dict(d)] for [d] in [json.loads(s)], or the
      exception that building it raises: [ValueError] for a text that is not
      JSON, [TypeError] for a value that cannot be iterated, [KeyError] for a
      condition that lacks a key.
    - Modelled from the spec: [holds_release release text] tells whether
      [filter_qs_for_fixed_at] and [exclude_qs_for_fixed_at] of
      [issues/utils.py] take the [fixed_at] text of a row to hold the
      release.
    - [sqlite3_numeric text] is the number SQLite reads from a text that
      [sqlite.integer_prefix] leaves open, [sqlite3_real_add a b] the sum of
      two numbers in floating point, and [sqlite3_real_text r] the text
      SQLite stores for a real number in a column of TEXT affinity. *)
Class Libraries : Type := {
  relativedelta_add : datetime → string → Z → exn + datetime;
  conditions_from_json : string → exn + list VolumeBasedCondition.t;
  holds_release : string → string → bool;
  sqlite3_numeric : string → sqlite.numeric;
  sqlite3_real_add : sqlite.numeric → sqlite.numeric → float;
  sqlite3_real_text : float → string
}.

(** The number SQLite reads from a text. *)
Definition numeric_type `{Libraries} (text : string) : sqlite.numeric :=
  match sqlite.integer_prefix text with
  | Some z => sqlite.INTEGER z
  | None => sqlite3_numeric text
  end.

(** The operator [+] of SQLite on two numbers: the sum of two integers is an
    integer unless it overflows 64 bits, every other sum is real. *)
Definition sqlite3_add `{Libraries} (a b : sqlite.numeric) : sqlite.numeric :=
  match a, b with
  | sqlite.INTEGER x, sqlite.INTEGER y =>
      if sqlite.int64 (x + y) then sqlite.INTEGER (x + y)
      else sqlite.REAL (sqlite3_real_add a b)
  | _, _ => sqlite.REAL (sqlite3_real_add a b)
  end.

(** [F(column) + Value(text)] in an [update] of a text column on the SQLite
    backend, which this repository runs on: the expression is compiled to
    the operator [+], and the sum is stored as its text. *)
Definition F_plus_Value `{Libraries} (column text : string) : string :=
  match sqlite3_add (numeric_type column) (numeric_type text) with
  | sqlite.INTEGER z => sqlite.decimal z
  | sqlite.REAL r => sqlite3_real_text r
  end.

Definition dateutil_kwargs_map : gmap string string :=
  list_to_map
    [ ("year", "years"); ("month", "months"); ("week", "weeks");
      ("day", "days"); ("hour", "hours"); ("minute", "minutes") ].

Definition add_periods_to_datetime `{Libraries} {S}
    (dt : datetime) (nr_of_periods : Z) (period_name : string) : M S datetime :=
  match dateutil_kwargs_map !! period_name with
  | None => raise KeyError
  | Some kw =>
      match relativedelta_add dt kw nr_of_periods with
      | inl e => raise e
      | inr dt' => mret dt'
      end
  end.

Definition create_unmute_issue_handler (issue_id : IssueId) : Handler :=
  unmute_closure issue_id.

(** ** [IssueStateManager]

    The methods act on one in-memory issue and on the process; [save()] is
    done by the caller. *)

(** Reading the issue object, assigning to it, and running code that only
    touches the process. *)
Definition the_issue : M (Issue * Process) Issue := λ s, (Return s.1, s).

Definition assign (f : Issue → Issue) : M (Issue * Process) unit :=
  modify (λ s, (f s.1, s.2)).

Definition in_process {A} (m : M Process A) : M (Issue * Process) A := λ s,
  let '(r, p') := m s.2 in (r, (s.1, p')).

Module IssueStateManager.

Definition unmute (triggered_by_event : bool) : M (Issue * Process) unit :=
  issue ← the_issue;
  if is_muted issue then
    assign (set_is_muted false);;
    assign (set_unmute_on_volume_based_conditions "[]");;
    assign (set_unmute_after None);;
    in_process (on_issue_pc (id issue) (PeriodCounter.remove_event_listener UNMUTE_PURPOSE));;
    if triggered_by_event then
      match project issue with
      | None => raise AttributeError
      | Some prj =>
          if alert_on_unmute prj then in_process (send_unmute_alert_delay (id issue))
          else mret tt
      end
    else mret tt
  else mret tt.

Definition resolve : M (Issue * Process) unit :=
  assign (set_is_resolved true);;
  assign (add_fixed_at "");;
  unmute false.

Definition resolve_by_latest : M (Issue * Process) unit :=
  assign (set_is_resolved true);;
  issue ← the_issue;
  match project issue with
  | None => raise AttributeError
  | Some prj =>
      match latest_release_version prj with
      | None => raise AttributeError
      | Some version => assign (add_fixed_at version);; unmute false
      end
  end.

Definition resolve_by_release (release_version : string) : M (Issue * Process) unit :=
  assign (set_is_resolved true);;
  assign (add_fixed_at release_version);;
  unmute false.

Definition resolve_by_next : M (Issue * Process) unit :=
  assign (set_is_resolved true);;
  assign (set_is_resolved_by_next_release true);;
  unmute false.

Definition reopen : M (Issue * Process) unit :=
  assign (set_is_resolved false);;
  assign (set_is_resolved_by_next_release false);;
  unmute false.

Section WithLibraries.
Context `{Libraries}.

(** The caller passes [get_pc_registry().by_issue], the process's registry. *)
Definition set_unmute_handlers (now : datetime) : M (Issue * Process) unit :=
  issue ← the_issue;
  in_process (on_issue_pc (id issue) (
    unmute_vbcs ← match conditions_from_json (unmute_on_volume_based_conditions issue) with
                  | inr l => mret l
                  | inl e => raise e
                  end;
    for_each unmute_vbcs (λ vbc,
      initial_state ← PeriodCounter.add_event_listener
        (VolumeBasedCondition.period vbc)
        (VolumeBasedCondition.nr_of_periods vbc)
        (VolumeBasedCondition.volume vbc)
        (create_unmute_issue_handler (id issue))
        (timetuple now)
        UNMUTE_PURPOSE;
      if initial_state : bool then raise (Exception "The unmute condition is already true")
      else mret tt))).

(** [now] is the reading of [datetime.now(timezone.utc)]. *)
Definition mute (unmute_on_volume_based_conditions : string)
    (unmute_after_tuple : option Z * option string) (now : datetime)
    : M (Issue * Process) unit :=
  issue ← the_issue;
  if is_resolved issue then raise (IncongruentStateException "Cannot mute a resolved issue")
  else
    assign (set_is_muted true);;
    assign (set_unmute_on_volume_based_conditions unmute_on_volume_based_conditions);;
    set_unmute_handlers now;;
    let '(nr_of_periods, period_name) := unmute_after_tuple in
    match nr_of_periods, period_name with
    | Some n, Some p =>
        dt ← add_periods_to_datetime now n p;
        assign (set_unmute_after (Some dt))
    | _, _ => mret tt
    end.

End WithLibraries.

End IssueStateManager.

(** ** The issue table and querysets

    A queryset is a lazy selection of rows: every [update], [exists] and
    iteration evaluates it against the table as it is at that moment. *)

Abbreviation Table := (list Issue) (only parsing).
Abbreviation QuerySet := (Issue → bool) (only parsing).

(** [Issue.objects.filter(pk__in=pks)] *)
Definition pk_in (pks : list IssueId) : QuerySet := λ r, bool_decide (id r ∈ pks).

(** [qs.filter(...)] with a condition on the row. *)
Definition qs_filter (qs : QuerySet) (cond : Issue → bool) : QuerySet :=
  λ r, qs r && cond r.

(** [qs.update(...)]; [f] computes the new row from the old one, as [F]
    expressions do. *)
Definition update (qs : QuerySet) (f : Issue → Issue) : M (Table * Process) unit :=
  modify (λ s, (map (λ r, if qs r then f r else r) s.1, s.2)).

(** [qs.exists()] *)
Definition exists_ (qs : QuerySet) : M (Table * Process) bool :=
  λ s, (Return (existsb qs s.1), s).

(** [for issue in qs]: the rows are fetched when the loop starts. *)
Definition fetch (qs : QuerySet) : M (Table * Process) (list Issue) :=
  λ s, (Return (List.filter qs s.1), s).

(** The row of the table with primary key [k]. *)
Definition row (k : IssueId) (db : Table) : option Issue :=
  List.find (λ r, N.eqb (id r) k) db.

(** [Issue.objects.get(id=issue_id)] *)
Definition objects_get (issue_id : IssueId) : M (Table * Process) Issue := λ s,
  match row issue_id s.1 with
  | Some r => (Return r, s)
  | None => (Raise DoesNotExist, s)
  end.

(** [issue.save()]: an UPDATE by primary key, an INSERT when no row has it. *)
Definition save (issue : Issue) : M (Table * Process) unit :=
  modify (λ s,
    (if existsb (λ r, N.eqb (id r) (id issue)) s.1
     then map (λ r, if N.eqb (id r) (id issue) then issue else r) s.1
     else s.1 ++ [issue],
     s.2)).

(** A method of [IssueStateManager] called on an issue object held in memory;
    the object as the call left it is returned, the table is not touched. *)
Definition call_on (issue : Issue) (m : M (Issue * Process) unit) : M (Table * Process) Issue := λ s,
  match m (issue, s.2) with
  | (Return _, (issue', p')) => (Return issue', (s.1, p'))
  | (Raise e, (_, p')) => (Raise e, (s.1, p'))
  end.

(** Modelled from the spec: [issues/utils.py] is not among the sources. The
    helper narrows a queryset to the rows whose [fixed_at] holds the
    release. *)
Definition filter_qs_for_fixed_at `{Libraries} (qs : QuerySet) (release : string) : QuerySet :=
  qs_filter qs (λ r, holds_release release (fixed_at r)).

(** Modelled from the spec: the complement of [filter_qs_for_fixed_at] within
    the queryset ([issues/utils.py] is not among the sources). *)
Definition exclude_qs_for_fixed_at `{Libraries} (qs : QuerySet) (release : string) : QuerySet :=
  qs_filter qs (λ r, negb (holds_release release (fixed_at r))).

(** ** [IssueQuerysetStateManager] *)

Module IssueQuerysetStateManager.

Definition _resolve_at `{Libraries} (issue_qs : QuerySet) (release_version : string)
    : M (Table * Process) unit :=
  update (filter_qs_for_fixed_at issue_qs release_version) (set_is_resolved true);;
  update (exclude_qs_for_fixed_at issue_qs "")
    (λ r, set_fixed_at (F_plus_Value (fixed_at r) (release_version +:+ LF))
            (set_is_resolved true r));;
  update issue_qs (λ r, set_fixed_at (F_plus_Value (fixed_at r) (release_version +:+ LF)) r).

Definition unmute (issue_qs : QuerySet) (triggered_by_event : bool) : M (Table * Process) unit :=
  update issue_qs (λ r,
    set_unmute_after None (set_unmute_on_volume_based_conditions "[]" (set_is_muted false r)));;
  issues ← fetch issue_qs;
  for_each issues (λ issue, call_on issue (IssueStateManager.unmute triggered_by_event);; mret tt).

Definition resolve `{Libraries} (issue_qs : QuerySet) : M (Table * Process) unit :=
  _resolve_at issue_qs "";;
  unmute issue_qs false.

Definition resolve_by_latest (issue_qs : QuerySet) : M (Table * Process) unit :=
  raise (NotImplementedError "resolve_by_latest is not implemented - see comments above").

Definition resolve_by_release `{Libraries} (issue_qs : QuerySet) (release_version : string)
    : M (Table * Process) unit :=
  _resolve_at issue_qs release_version;;
  unmute issue_qs false.

Definition resolve_by_next (issue_qs : QuerySet) : M (Table * Process) unit :=
  update issue_qs (λ r, set_is_resolved_by_next_release true (set_is_resolved true r));;
  unmute issue_qs false.

Definition reopen (issue_qs : QuerySet) : M (Table * Process) unit :=
  raise (NotImplementedError "reopen is not implemented - see comments above").

Section WithLibraries.
Context `{Libraries}.

Definition set_unmute_handlers (issue_qs : QuerySet) (now : datetime) : M (Table * Process) unit :=
  issues ← fetch issue_qs;
  for_each issues (λ issue, call_on issue (IssueStateManager.set_unmute_handlers now);; mret tt).

Definition mute (issue_qs : QuerySet) (unmute_on_volume_based_conditions : string)
    (unmute_after_tuple : option Z * option string) (now : datetime)
    : M (Table * Process) unit :=
  resolved ← exists_ (qs_filter issue_qs is_resolved);
  if resolved : bool then raise (IncongruentStateException "Cannot mute a resolved issue")
  else
    update issue_qs (λ r,
      set_unmute_on_volume_based_conditions unmute_on_volume_based_conditions (set_is_muted true r));;
    set_unmute_handlers issue_qs now;;
    let '(nr_of_periods, period_name) := unmute_after_tuple in
    match nr_of_periods, period_name with
    | Some n, Some p =>
        dt ← add_periods_to_datetime now n p;
        update issue_qs (set_unmute_after (Some dt))
    | _, _ => mret tt
    end.

End WithLibraries.

End IssueQuerysetStateManager.

(** The body of the closure returned by [create_unmute_issue_handler]. *)
Definition unmute_issue_handler_body (issue_id : IssueId) : M (Table * Process) unit :=
  issue ← objects_get issue_id;
  issue' ← call_on issue (IssueStateManager.unmute true);
  save issue'.

(** Calling a stored [when_becomes_true]. *)
Definition call_handler (h : Handler) : M (Table * Process) unit :=
  match h with
  | unmute_closure issue_id => unmute_issue_handler_body issue_id
  | other_closure _ => mret tt
  end.

(** ** The operations of the two managers, as data *)

Inductive single_op : Type :=
| op_resolve
| op_resolve_by_latest
| op_resolve_by_release (release_version : string)
| op_resolve_by_next
| op_reopen
| op_mute (unmute_on_volume_based_conditions : string)
    (unmute_after_tuple : option Z * option string) (now : datetime)
| op_unmute (triggered_by_event : bool)
| op_set_unmute_handlers (now : datetime).


Definition run_queryset `{Libraries} (op : single_op) (issue_qs : QuerySet) : M (Table * Process) unit :=
  match op with
  | op_resolve => IssueQuerysetStateManager.resolve issue_qs
  | op_resolve_by_latest => IssueQuerysetStateManager.resolve_by_latest issue_qs
  | op_resolve_by_release v => IssueQuerysetStateManager.resolve_by_release issue_qs v
  | op_resolve_by_next => IssueQuerysetStateManager.resolve_by_next issue_qs
  | op_reopen => IssueQuerysetStateManager.reopen issue_qs
  | op_mute c t now => IssueQuerysetStateManager.mute issue_qs c t now
  | op_unmute t => IssueQuerysetStateManager.unmute issue_qs t
  | op_set_unmute_handlers now => IssueQuerysetStateManager.set_unmute_handlers issue_qs now
  end.


(** The listener [set_unmute_handlers] registers for a condition. *)
Definition unmute_listener_for (issue_id : IssueId) (initial_state : bool)
    (vbc : VolumeBasedCondition.t) : PeriodCounter.EventListener :=
  {| PeriodCounter.period_name := VolumeBasedCondition.period vbc;
     PeriodCounter.nr_of_periods := VolumeBasedCondition.nr_of_periods vbc;
     PeriodCounter.gte_threshold := VolumeBasedCondition.volume vbc;
     PeriodCounter.when_becomes_true := create_unmute_issue_handler issue_id;
     PeriodCounter.purpose := UNMUTE_PURPOSE;
     PeriodCounter.state := initial_state |}.

(** A condition that is already true when it is registered at [tup]. *)
Definition already_true (pc : PeriodCounter.t) (tup : struct_time)
    (vbc : VolumeBasedCondition.t) : bool :=
  (VolumeBasedCondition.volume vbc <=?
     PeriodCounter.counted pc tup (VolumeBasedCondition.period vbc)
       (VolumeBasedCondition.nr_of_periods vbc))%Z.

(** ** The timed SQLite backend ([bugsink/timed_sqlite_backend/base.py]) *)

Module timed_sqlite_backend.

(** The closure [check_time] of [limit_runtime], by the variables it captures. *)
Record check_time_closure : Type := { start : float; seconds : float }.

(** What is visible of a connection and of the wall clock. *)
Record Env : Type := {
  progress_handler : option (check_time_closure * Z);
  time_time : float
}.

(** [check_time()], called when the clock reads [now]; falling off the end of
    the function returns [None]. *)
Definition check_time (c : check_time_closure) (now : float) : option Z :=
  if PrimFloat.ltb (PrimFloat.add (start c) (seconds c)) now then Some 1%Z else None.

(** SQLite interrupts the statement when the handler's result is non-zero. *)
Definition requests_abort (r : option Z) : bool :=
  match r with
  | Some z => negb (z =? 0)%Z
  | None => false
  end.

Definition set_progress_handler (h : option check_time_closure) (n : Z) : M Env unit :=
  modify (λ e,
    {| progress_handler := match h with Some c => Some (c, n) | None => None end;
       time_time := time_time e |}).

(** A generator-based context manager with a single bare [yield]: the code
    before it and the code after it. *)
Record contextmanager (S : Type) : Type := {
  before_yield : M S unit;
  after_yield : M S unit
}.
Arguments before_yield {S} _.
Arguments after_yield {S} _.

(** [with cm: body]. An exception of the body is thrown into the generator at
    the [yield]; no [try] encloses it there, so the exception leaves the
    generator and the code after the [yield] does not run. *)
Definition with_ {S A} (cm : contextmanager S) (body : M S A) : M S A :=
  before_yield cm;;
  ((λ s, match body s with
         | (Return a, s') => (after_yield cm;; mret a) s'
         | (Raise e, s') => (Raise e, s')
         end) : M S A).

Definition limit_runtime (seconds : float) : contextmanager Env :=
  {| before_yield :=
       e ← get;
       set_progress_handler (Some {| start := time_time e; seconds := seconds |}) 10000;
     after_yield := set_progress_handler None 0 |}.

(** The connection as [limit_runtime(conn, 5.0)] leaves it before the [yield],
    and as the code after the [yield] leaves it. *)
Definition limited (e : Env) : Env :=
  {| progress_handler := Some ({| start := time_time e; seconds := 5%float |}, 10000);
     time_time := time_time e |}.

Definition released (e : Env) : Env :=
  {| progress_handler := None; time_time := time_time e |}.

Section SQLiteCursorWrapper.
(** The cursor of Django's own backend: [super().execute] and
    [super().executemany]. *)
Context {Query Params ParamList Result : Type}.
Variable super_execute : Query → Params → M Env Result.
Variable super_executemany : Query → ParamList → M Env Result.

Definition execute (query : Query) (params : Params) : M Env Result :=
  with_ (limit_runtime 5%float) (super_execute query params).

Definition executemany (query : Query) (param_list : ParamList) : M Env Result :=
  with_ (limit_runtime 5%float) (super_executemany query param_list).

End SQLiteCursorWrapper.

End timed_sqlite_backend.

(** ** The project forms ([projects/forms.py]) *)

Module forms.

(** [get_user_model()]: the column read here. *)
Record User : Type := { email : string }.

Module ProjectMemberInviteForm.

Record t : Type := {
  user_must_exist : bool;
  cleaned_data : gmap string string;
  email_help_text : string
}.

Definition __init__ (user_must_exist : bool) (cleaned_data : gmap string string) : t :=
  {| ProjectMemberInviteForm.user_must_exist := user_must_exist;
     ProjectMemberInviteForm.cleaned_data := cleaned_data;
     email_help_text :=
       if user_must_exist then "The user must already exist in the system" else "" |}.

(** [User.objects.filter(email=email).exists()] *)
Definition user_exists (email : string) : M (list User) bool :=
  λ users, (Return (existsb (λ u, String.eqb (forms.email u) email) users), users).

Definition clean_email (self : t) : M (list User) string :=
  match cleaned_data self !! "email" with
  | None => raise KeyError
  | Some email =>
      if user_must_exist self then
        found ← user_exists email;
        if negb found then
          raise (ValidationError "No user with this email address in the system.")
        else mret email
      else mret email
  end.

End ProjectMemberInviteForm.

Module ProjectForm.

(** Modelled from the spec: [projects/models.py] is not among the sources;
    the form reads the primary key and the DSN of its instance. *)
Record Project : Type := { pk : option Z; dsn : string }.

Record Field (TeamQuerySet : Type) : Type := {
  label : string;
  help_text : string;
  initial : option string;
  disabled : bool;
  queryset : option TeamQuerySet
}.
Arguments label {TeamQuerySet} _.
Arguments help_text {TeamQuerySet} _.
Arguments initial {TeamQuerySet} _.
Arguments disabled {TeamQuerySet} _.
Arguments queryset {TeamQuerySet} _.

Record t (TeamQuerySet : Type) : Type := {
  instance : option Project;
  fields : gmap string (Field TeamQuerySet)
}.
Arguments instance {TeamQuerySet} _.
Arguments fields {TeamQuerySet} _.

Section WithDjango.
Context {TeamQuerySet : Type}.
(** [Team.objects.all()], the queryset a model form gives the [team] field,
    and [reverse(name, kwargs={project_pk: pk})]. *)
Variable all_teams : TeamQuerySet.
Variable reverse : string → Z → string.

Definition plain_field (label : string) : Field TeamQuerySet :=
  {| ProjectForm.label := label; help_text := ""; initial := None;
     disabled := false; queryset := None |}.

(** The fields of [Meta.fields] and the declared [dsn] field. *)
Definition base_fields : gmap string (Field TeamQuerySet) :=
  list_to_map
    [ ("team", {| label := "Team"; help_text := ""; initial := None;
                  disabled := false; queryset := Some all_teams |});
      ("name", plain_field "Name");
      ("visibility", plain_field "Visibility");
      ("dsn", {| label := "DSN"; help_text := ""; initial := None;
                 disabled := true; queryset := None |}) ].

(** [super().__init__]: a form built without an instance gets a fresh,
    unsaved one. *)
Definition super_init (instance : option Project) : t TeamQuerySet :=
  {| ProjectForm.instance :=
       Some (match instance with
             | Some i => i
             | None => {| pk := None; dsn := "" |}
             end);
     fields := base_fields |}.

(** [del self.fields[name]] *)
Definition del_field (name : string) : M (t TeamQuerySet) unit := λ self,
  match fields self !! name with
  | None => (Raise KeyError, self)
  | Some _ => (Return tt, {| instance := instance self; fields := delete name (fields self) |})
  end.

(** [self.fields[name].attr = value], as a change [f] of the field. *)
Definition set_field (name : string) (f : Field TeamQuerySet → Field TeamQuerySet)
    : M (t TeamQuerySet) unit := λ self,
  match fields self !! name with
  | None => (Raise KeyError, self)
  | Some fld => (Return tt, {| instance := instance self; fields := <[name := f fld]> (fields self) |})
  end.

Definition dsn_help_text (project_pk : Z) : string :=
  "Use the DSN to <a href=" +:+ String "034"%char (reverse "project_sdk_setup" project_pk)
  +:+ String "034"%char " class=" +:+ String "034"%char "text-cyan-800 font-bold"
  +:+ String "034"%char ">set up the SDK</a>.".

(** The body of [__init__] after [super().__init__]. *)
Definition configure (team_qs : option TeamQuerySet) : M (t TeamQuerySet) unit :=
  self ← get;
  match instance self with
  | Some i =>
      match pk i with
      | Some project_pk =>
          del_field "team";;
          set_field "dsn" (λ f, {| label := label f; help_text := help_text f;
                                   initial := Some (dsn i); disabled := disabled f;
                                   queryset := queryset f |});;
          set_field "dsn" (λ f, {| label := "DSN (read-only)"; help_text := help_text f;
                                   initial := initial f; disabled := disabled f;
                                   queryset := queryset f |});;
          set_field "dsn" (λ f, {| label := label f; help_text := dsn_help_text project_pk;
                                   initial := initial f; disabled := disabled f;
                                   queryset := queryset f |})
      | None =>
          set_field "team" (λ f, {| label := label f; help_text := help_text f;
                                    initial := initial f; disabled := disabled f;
                                    queryset := team_qs |});;
          del_field "dsn"
      end
  | None =>
      set_field "team" (λ f, {| label := label f; help_text := help_text f;
                                initial := initial f; disabled := disabled f;
                                queryset := team_qs |});;
      del_field "dsn"
  end.

(** [ProjectForm(instance=instance, team_qs=team_qs)] *)
Definition __init__ (instance : option Project) (team_qs : option TeamQuerySet)
    : outcome unit * t TeamQuerySet :=
  configure team_qs (super_init instance).

End WithDjango.

End ProjectForm.

End forms.

(** ** Auxiliary definitions used in the statements *)

(** The three assignments of [unmute]. *)
Definition cleared (i : Issue) : Issue :=
  set_unmute_after None (set_unmute_on_volume_based_conditions "[]" (set_is_muted false i)).

(** The two assignments of [mute]. *)
Definition muted_with (conds : string) (i : Issue) : Issue :=
  set_unmute_on_volume_based_conditions conds (set_is_muted true i).

Definition without_unmute_listeners (pc : PeriodCounter.t) : PeriodCounter.t :=
  PeriodCounter.with_listeners
    (filter (λ l, PeriodCounter.purpose l ≠ UNMUTE_PURPOSE) (PeriodCounter.event_listeners pc)) pc.

(** The loop of [set_unmute_handlers], run on the issue's counter. *)
Definition register_loop (issue_id : IssueId) (now : datetime)
    (vbcs : list VolumeBasedCondition.t) : M PeriodCounter.t unit :=
  for_each vbcs (λ vbc,
    initial_state ← PeriodCounter.add_event_listener
      (VolumeBasedCondition.period vbc)
      (VolumeBasedCondition.nr_of_periods vbc)
      (VolumeBasedCondition.volume vbc)
      (create_unmute_issue_handler issue_id)
      (timetuple now)
      UNMUTE_PURPOSE;
    if initial_state : bool then raise (Exception "The unmute condition is already true")
    else mret tt).

(** What the three updates of [_resolve_at] do to a row the queryset
    selects by its primary key. *)
Definition resolve_at_row `{Libraries} (release_version : string) (r : Issue) : Issue :=
  let r1 := if holds_release release_version (fixed_at r)
            then set_is_resolved true r else r in
  let r2 := if negb (holds_release "" (fixed_at r1))
            then set_fixed_at (F_plus_Value (fixed_at r1) (release_version +:+ LF))
                   (set_is_resolved true r1)
            else r1 in
  set_fixed_at (F_plus_Value (fixed_at r2) (release_version +:+ LF)) r2.

(** An issue that is not muted carries no conditions and no [unmute_after]. *)
Definition settled (i : Issue) : Prop :=
  is_muted i = false →
  unmute_on_volume_based_conditions i = "[]" ∧ unmute_after i = None.

(** A change of rows that keeps primary keys and leaves the rows outside
    [pks] alone. *)
Definition local_to (pks : list IssueId) (g : Issue → Issue) : Prop :=
  ∀ r, id (g r) = id r ∧ (pk_in pks r = false → g r = r).

(** ** Sample data *)

Module Sample.

Definition dq : string := String "034"%char EmptyString.

(** The JSON text of one condition: at least 3 events within 1 day. *)
Definition three_per_day_json : string :=
  "[{" +:+ dq +:+ "period" +:+ dq +:+ ": " +:+ dq +:+ "day" +:+ dq +:+ ", "
  +:+ dq +:+ "nr_of_periods" +:+ dq +:+ ": 1, "
  +:+ dq +:+ "volume" +:+ dq +:+ ": 3}]".

Definition three_per_day : VolumeBasedCondition.t :=
  VolumeBasedCondition.mk "day" 1 3.

(** The JSON text of two conditions: the one above, and at least 100 events
    within 1 year. *)
Definition two_conditions_json : string :=
  "[{" +:+ dq +:+ "period" +:+ dq +:+ ": " +:+ dq +:+ "day" +:+ dq +:+ ", "
  +:+ dq +:+ "nr_of_periods" +:+ dq +:+ ": 1, "
  +:+ dq +:+ "volume" +:+ dq +:+ ": 3}, {"
  +:+ dq +:+ "period" +:+ dq +:+ ": " +:+ dq +:+ "year" +:+ dq +:+ ", "
  +:+ dq +:+ "nr_of_periods" +:+ dq +:+ ": 1, "
  +:+ dq +:+ "volume" +:+ dq +:+ ": 100}]".

Definition hundred_per_year : VolumeBasedCondition.t :=
  VolumeBasedCondition.mk "year" 1 100.

(** The real numbers of the samples. *)
Definition sample_reals : list (string * float) :=
  [("1.0", 1%float); ("2.0", 2%float); ("3.0", 3%float); ("4.0", 4%float)].

Definition sample_real (n : sqlite.numeric) : float :=
  match n with
  | sqlite.INTEGER i => PrimFloat.of_uint63 (Uint63.of_Z i)
  | sqlite.REAL r => r
  end.

(** An instance of the calls outside the sources that suffices for the
    sample inputs. The keyword's component of a date is advanced without
    carrying into the next one, a year beyond 9999 raising as [datetime]
    does; the sample texts are decoded, a number as text raising [TypeError]
    as the loop over it does; a [fixed_at] holds a release when the release
    and a newline occur in it; and SQLite's reals are those of
    [sample_reals]. *)
Definition libraries : Libraries :=
  {| relativedelta_add := λ dt kw n,
       let dt' :=
         {| year := year dt + (if String.eqb kw "years" then n else 0);
            month := month dt + (if String.eqb kw "months" then n else 0);
            day := day dt + (if String.eqb kw "weeks" then 7 * n else 0)
                          + (if String.eqb kw "days" then n else 0);
            hour := hour dt + (if String.eqb kw "hours" then n else 0);
            minute := minute dt + (if String.eqb kw "minutes" then n else 0);
            second := second dt;
            microsecond := microsecond dt |} in
       if ((1 <=? year dt') && (year dt' <=? 9999))%Z then inr dt' else inl ValueError;
     conditions_from_json := λ s,
       if String.eqb s "[]" then inr []
       else if String.eqb s three_per_day_json then inr [three_per_day]
       else if String.eqb s two_conditions_json then inr [three_per_day; hundred_per_year]
       else if String.eqb s "5" then inl TypeError
       else if String.eqb s "[{}]" then inl KeyError
       else inl ValueError;
     holds_release := λ release text,
       match String.index 0 (release +:+ LF) text with Some _ => true | None => false end;
     sqlite3_numeric := λ text,
       match List.find (λ x, String.prefix x.1 (sqlite.skip_spaces text)) sample_reals with
       | Some x => sqlite.REAL x.2
       | None => sqlite.INTEGER 0
       end;
     sqlite3_real_add := λ a b, PrimFloat.add (sample_real a) (sample_real b);
     sqlite3_real_text := λ r,
       match List.find (λ x, PrimFloat.eqb x.2 r) sample_reals with
       | Some x => x.1
       | None => "0.0"
       end |}.

Definition noon : datetime :=
  {| year := 2024; month := 5; day := 17; hour := 12; minute := 0; second := 0;
     microsecond := 0 |}.

Definition alerting_project : Project :=
  {| alert_on_unmute := true; latest_release_version := Some "1.0" |}.

(** A new issue, as the model's defaults make it. *)
Definition open_issue : Issue :=
  {| id := 1%N; project := Some alerting_project;
     is_resolved := false; is_resolved_by_next_release := false; fixed_at := "";
     is_muted := false; unmute_on_volume_based_conditions := "[]";
     unmute_after := None |}.

(** An issue that was resolved without release information and reopened. *)
Definition reopened_issue : Issue := set_fixed_at LF open_issue.

(** An unresolved issue that was fixed at release 2.0 before. *)
Definition fixed_issue : Issue := set_fixed_at ("2.0" +:+ LF) open_issue.

(** A counter that has seen no event, and one that sees ten in any window. *)
Definition quiet_counter : PeriodCounter.t :=
  {| PeriodCounter.counted := λ _ _ _, 0; PeriodCounter.event_listeners := [] |}.

Definition busy_counter : PeriodCounter.t :=
  {| PeriodCounter.counted := λ _ _ _, 10; PeriodCounter.event_listeners := [] |}.

Definition quiet_process : Process :=
  {| by_issue := {[ 1%N := quiet_counter ]}; alert_queue := [] |}.

Definition busy_process : Process :=
  {| by_issue := {[ 1%N := busy_counter ]}; alert_queue := [] |}.

(** The issue muted until 3 events arrive within a day, and its listener. *)
Definition muted_issue : Issue := muted_with three_per_day_json open_issue.

Definition muted_process : Process :=
  {| by_issue :=
       {[ 1%N := PeriodCounter.with_listeners [unmute_listener_for 1%N false three_per_day]
                   quiet_counter ]};
     alert_queue := [] |}.


(** The process of the muted issue with a counter for issue 2 as well. *)
Definition crowded_process : Process :=
  set_by_issue (<[2%N := busy_counter]> (by_issue muted_process)) muted_process.

(** A connection without progress handler, the clock at 100 s. *)
Definition idle_env : timed_sqlite_backend.Env :=
  {| timed_sqlite_backend.progress_handler := None;
     timed_sqlite_backend.time_time := 100%float |}.

(** An underlying [execute] that is interrupted when the clock reads 106 s. *)
Definition interrupted_execute (query : string) (params : list string)
    : M timed_sqlite_backend.Env unit := λ e,
  (Raise (OperationalError "interrupted"),
   {| timed_sqlite_backend.progress_handler := timed_sqlite_backend.progress_handler e;
      timed_sqlite_backend.time_time := 106%float |}).

(** An underlying [execute] that returns when the clock reads 101 s. *)
Definition quick_execute (query : string) (params : list string)
    : M timed_sqlite_backend.Env unit := λ e,
  (Return tt,
   {| timed_sqlite_backend.progress_handler := timed_sqlite_backend.progress_handler e;
      timed_sqlite_backend.time_time := 101%float |}).

Definition users : list forms.User :=
  [ {| forms.email := "ann@example.org" |}; {| forms.email := "bob@example.org" |} ].

End Sample.

(** ** Further definitions used in the statements *)

(** Whether a text holds a newline. *)
Fixpoint has_newline (s : string) : bool :=
  match s with
  | EmptyString => false
  | String c s' => Ascii.eqb c "010"%char || has_newline s'
  end.

(** Exceptions of the code below that the state managers do not raise, next
    to those they do. *)
Inductive error : Type :=
| Raised (e : exn)
| IndexError
| MultipleObjectsReturned.

(** ** Event data ([Issue.get_main_exception], [Issue.title]) *)

Module EventData.

Local Unset Elimination Schemes.

(** What [json.loads] returns. An object keeps the pairs in the order of the
    text; a later pair overrides an earlier one with the same key. *)
Inductive json : Type :=
| JNull
| JBool (b : bool)
| JInt (z : Z)
| JFloat (f : float)
| JStr (s : string)
| JList (l : list json)
| JDict (items : list (string * json)).

Local Set Elimination Schemes.

(** The value a dict holds for a key. *)
Fixpoint lookup (key : string) (items : list (string * json)) : option json :=
  match items with
  | [] => None
  | (k, v) :: rest =>
      match lookup key rest with
      | Some v' => Some v'
      | None => if String.eqb k key then Some v else None
      end
  end.

(** [d.get(key, default)]: only a dict has [get]. *)
Definition get (d : json) (key : string) (default : json) : error + json :=
  match d with
  | JDict items => inr (match lookup key items with Some v => v | None => default end)
  | _ => inl (Raised AttributeError)
  end.

(** [d[key]] for a string key. *)
Definition getitem (d : json) (key : string) : error + json :=
  match d with
  | JDict items =>
      match lookup key items with
      | Some v => inr v
      | None => inl (Raised KeyError)
      end
  | _ => inl (Raised TypeError)
  end.

(** Truth value of an object in a condition. *)
Definition truthy (v : json) : bool :=
  match v with
  | JNull => false
  | JBool b => b
  | JInt z => negb (z =? 0)%Z
  | JFloat f => negb (PrimFloat.eqb f 0%float)
  | JStr s => negb (String.eqb s "")
  | JList l => match l with [] => false | _ => true end
  | JDict items => match items with [] => false | _ => true end
  end.

Fixpoint last_char (s : string) : option ascii :=
  match s with
  | EmptyString => None
  | String c EmptyString => Some c
  | String _ s' => last_char s'
  end.

(** [v[-1]] *)
Definition getitem_last (v : json) : error + json :=
  match v with
  | JList l =>
      match List.last (map Some l) None with
      | Some x => inr x
      | None => inl IndexError
      end
  | JStr s =>
      match last_char s with
      | Some c => inr (JStr (String c EmptyString))
      | None => inl IndexError
      end
  | JDict _ => inl (Raised KeyError)
  | _ => inl (Raised TypeError)
  end.

(** [a + b], which yields a string for two strings; with a string on one
    side nothing else is accepted on the other. *)
Definition add_str (a b : json) : error + string :=
  match a, b with
  | JStr x, JStr y => inr (x +:+ y)
  | _, _ => inl (Raised TypeError)
  end.

(** [get_main_exception], on the parsed data of the issue's first event. *)
Definition get_main_exception (parsed_data : json) : error + json :=
  match get parsed_data "exception" (JDict [("values", JList [])]) with
  | inl e => inl e
  | inr exc =>
      match getitem exc "values" with
      | inl e => inl e
      | inr values => if truthy values then getitem_last values else inr (JDict [])
      end
  end.

(** [title], on the parsed data of the issue's first event. *)
Definition title (parsed_data : json) : error + string :=
  match get_main_exception parsed_data with
  | inl e => inl e
  | inr main_exception =>
      match get main_exception "type" (JStr "none") with
      | inl e => inl e
      | inr ty =>
          match add_str ty (JStr ": ") with
          | inl e => inl e
          | inr prefix =>
              match get main_exception "value" (JStr "none") with
              | inl e => inl e
              | inr value => add_str (JStr prefix) value
              end
          end
      end
  end.

End EventData.

(** ** [MyProjectMembershipForm] ([projects/forms.py]) *)

Module MyProjectMembershipForm.

(** Modelled from the spec: [projects/models.py] and [teams/models.py] are not
    among the sources; the form reads the team of the membership's project,
    its user, and [send_email_alerts] of the team memberships. *)
Record ProjectMembership : Type := { project_team : Z; user : Z }.

(** Modelled from the spec: a row of [teams.TeamMembership], by the columns
    the form reads. *)
Record TeamMembership : Type := {
  team : Z;
  member : Z;
  send_email_alerts : option bool
}.

(** A form field, by the attributes [__init__] assigns. *)
Record Field : Type := {
  empty_label : option string;
  widget_choices : list (string * string)
}.

Record t : Type := {
  instance : ProjectMembership;
  fields : gmap string Field
}.

(** [yesno(value)] of [django.template.defaultfilters], without argument. *)
Definition yesno (value : option bool) : string :=
  match value with
  | None => "maybe"
  | Some true => "yes"
  | Some false => "no"
  end.

(** [TeamMembership.objects.get(team=team, user=user)] *)
Definition objects_get (team_id user_id : Z) (memberships : list TeamMembership)
    : error + TeamMembership :=
  match List.filter (λ tm, Z.eqb (team tm) team_id && Z.eqb (member tm) user_id) memberships with
  | [] => inl (Raised DoesNotExist)
  | [tm] => inr tm
  | _ => inl MultipleObjectsReturned
  end.

(** The [try] block: the team's setting, [True] when it is unset or when
    there is no membership. *)
Definition team_send_email_alerts (self : ProjectMembership)
    (memberships : list TeamMembership) : error + bool :=
  match objects_get (project_team self) (user self) memberships with
  | inr tm => inr (match send_email_alerts tm with Some b => b | None => true end)
  | inl (Raised DoesNotExist) => inr true
  | inl e => inl e
  end.

(** [choices[0] = item] *)
Definition set_first {A} (item : A) (choices : list A) : error + list A :=
  match choices with
  | [] => inl IndexError
  | _ :: rest => inr (item :: rest)
  end.

(** [MyProjectMembershipForm(instance=instance, edit_role=edit_role)]. The
    form is only implemented for editing, so an instance is given;
    [edit_role] is [None] when the keyword is missing. [alerts] and [role]
    are the two fields the model form builds from [Meta.fields]. *)
Definition __init__ (edit_role : option bool) (instance : ProjectMembership)
    (alerts role : Field) (memberships : list TeamMembership) : error + t :=
  match edit_role with
  | None => inl (Raised KeyError)
  | Some edit_role =>
      let fields : gmap string Field :=
        <["role" := role]> (<["send_email_alerts" := alerts]> ∅) in
      let fields := if negb edit_role then delete "role" fields else fields in
      match team_send_email_alerts instance memberships with
      | inl e => inl e
      | inr team_default =>
          let empty_label :=
            "Team-default (currently: " +:+ yesno (Some team_default) +:+ ")" in
          match fields !! "send_email_alerts" with
          | None => inl (Raised KeyError)
          | Some f =>
              match set_first ("unknown", empty_label) (widget_choices f) with
              | inl e => inl e
              | inr choices =>
                  inr {| MyProjectMembershipForm.instance := instance;
                         fields := <["send_email_alerts" :=
                                      {| MyProjectMembershipForm.empty_label := Some empty_label;
                                         widget_choices := choices |}]> fields |}
              end
          end
      end
  end.

End MyProjectMembershipForm.


(** * Properties *)

(** Unfolds the monad's operations. *)
Ltac monad :=
  unfold the_issue, assign, in_process in *;
  unfold mbind, M_bind, mret, M_ret, raise, get, modify in *.

(** ** [IssueStateManager.unmute] *)

Lemma unmute_not_muted t i p :
  is_muted i = false → IssueStateManager.unmute t (i, p) = (Return tt, (i, p)).
Proof.
  intros Hm. unfold IssueStateManager.unmute. monad. simpl. rewrite Hm. reflexivity.
Qed.

Lemma unmute_muted t i p : is_muted i = true →
  IssueStateManager.unmute t (i, p) =
  match by_issue p !! id i with
  | None => (Raise KeyError, (cleared i, p))
  | Some pc =>
     let p' := set_by_issue (<[id i := without_unmute_listeners pc]> (by_issue p)) p in
     if t then
       match project i with
       | None => (Raise AttributeError, (cleared i, p'))
       | Some prj =>
           if alert_on_unmute prj
           then (Return tt, (cleared i, {| by_issue := by_issue p'; alert_queue := alert_queue p ++ [id i] |}))
           else (Return tt, (cleared i, p'))
       end
     else (Return tt, (cleared i, p'))
  end.
Proof.
  intros Hm. unfold IssueStateManager.unmute. monad. simpl. rewrite Hm. simpl.
  unfold on_issue_pc. simpl. destruct (by_issue p !! id i) as [pc|]; simpl; [|reflexivity].
  destruct t; [|reflexivity]. destruct (project i) as [prj|]; [|reflexivity].
  destruct (alert_on_unmute prj); reflexivity.
Qed.

(** What [unmute] leaves behind, whatever its outcome. *)
Lemma unmute_effect t i p :
  ∃ o i' p', IssueStateManager.unmute t (i, p) = (o, (i', p')) ∧
    id i' = id i ∧ is_muted i' = false ∧ is_resolved i' = is_resolved i ∧
    (alert_queue p' = alert_queue p ∨ alert_queue p' = alert_queue p ++ [id i]).
Proof.
  destruct (is_muted i) eqn:Hm.
  - rewrite (unmute_muted t i p Hm).
    destruct (by_issue p !! id i) as [pc|]; [|by eauto 10].
    destruct t; [|by eauto 10].
    destruct (project i) as [prj|]; [|by eauto 10].
    destruct (alert_on_unmute prj); eauto 10.
  - rewrite (unmute_not_muted t i p Hm). eauto 10.
Qed.

(** The single-object [unmute] removes the issue's unmute listeners. *)
Lemma unmute_removes_listeners i p pc :
  is_muted i = true → by_issue p !! id i = Some pc →
  ∃ p', IssueStateManager.unmute false (i, p) = (Return tt, (cleared i, p')) ∧
    unmute_listeners p' (id i) = [].
Proof.
  intros Hm Hpc. rewrite (unmute_muted false i p Hm), Hpc. eexists. split; [reflexivity|].
  unfold unmute_listeners. cbn. rewrite lookup_insert_eq. cbn.
  induction (PeriodCounter.event_listeners pc) as [|l ls IH]; [done|].
  rewrite filter_cons. case_decide as Hl; [|exact IH].
  rewrite filter_cons. case_decide; [done|exact IH].
Qed.

(** ** The handler built by [create_unmute_issue_handler] *)

Lemma row_id k db r : row k db = Some r → id r = k.
Proof. intros H. apply find_some in H as [_ H]. by apply N.eqb_eq. Qed.

Lemma row_exists k (db : Table) r :
  row k db = Some r → existsb (λ r, N.eqb (id r) k) db = true.
Proof. intros H. apply existsb_exists. exists r. by apply find_some in H. Qed.

Lemma row_replaced k (db : Table) r r' :
  row k db = Some r → id r' = k →
  row k (map (λ r, if N.eqb (id r) k then r' else r) db) = Some r'.
Proof.
  unfold row. intros Hf Hid. induction db as [|x db IH]; simpl in *; [done|].
  destruct (N.eqb (id x) k) eqn:E.
  - rewrite Hid, N.eqb_refl. done.
  - rewrite E. auto.
Qed.

Lemma handler_body_effect k db p :
  ∃ o db' p', unmute_issue_handler_body k (db, p) = (o, (db', p')) ∧
    (alert_queue p' = alert_queue p ∨ alert_queue p' = alert_queue p ++ [k]) ∧
    (o = Return tt → ∃ r, row k db' = Some r ∧ is_muted r = false).
Proof.
  unfold unmute_issue_handler_body, objects_get, call_on, save. monad.
  cbn -[IssueStateManager.unmute row]; unfold fst, snd.
  destruct (row k db) as [r|] eqn:Hf.
  2: { do 3 eexists. split; [reflexivity|]. split; [by left|done]. }
  destruct (unmute_effect true r p) as (o & i' & p' & -> & Hid & Hm & _ & Hq).
  pose proof (row_id _ _ _ Hf) as Hk. rewrite Hk in Hq.
  destruct o as [[]|e]; simpl.
  2: { do 3 eexists. split; [reflexivity|]. split; done. }
  rewrite Hid, Hk, (row_exists _ _ _ Hf).
  do 3 eexists. split; [reflexivity|]. split; [done|].
  intros _. exists i'. split; [|done]. apply (row_replaced k db r i' Hf). congruence.
Qed.

Lemma handler_body_unmuted k db p r :
  row k db = Some r → is_muted r = false →
  ∃ db', unmute_issue_handler_body k (db, p) = (Return tt, (db', p)) ∧ row k db' = Some r.
Proof.
  intros Hf Hm. unfold unmute_issue_handler_body, objects_get, call_on, save. monad.
  cbn -[IssueStateManager.unmute row]; unfold fst, snd.
  rewrite Hf, (unmute_not_muted true r p Hm). simpl.
  pose proof (row_id _ _ _ Hf) as Hk.
  rewrite Hk, (row_exists _ _ _ Hf). eexists. split; [reflexivity|].
  by apply (row_replaced k db r r Hf).
Qed.

Lemma handlers_after_unmuted n k db p r :
  row k db = Some r → is_muted r = false →
  ∃ db', for_each (replicate n (create_unmute_issue_handler k)) call_handler (db, p)
         = (Return tt, (db', p)).
Proof.
  revert db. induction n as [|n IH]; intros db Hf Hm; simpl.
  - by eexists.
  - monad.
    change (call_handler (create_unmute_issue_handler k)) with (unmute_issue_handler_body k).
    destruct (handler_body_unmuted k db p r Hf Hm) as (db' & -> & Hf').
    apply (IH db' Hf' Hm).
Qed.

(** The handler unmutes a muted row, given a registry entry and a project. *)
Lemma handler_unmutes_muted_row k db p pc r prj :
  by_issue p !! k = Some pc →
  row k db = Some r → is_muted r = true → project r = Some prj →
  ∃ db' p', call_handler (create_unmute_issue_handler k) (db, p) = (Return tt, (db', p')) ∧
    ∃ r', row k db' = Some r' ∧ is_muted r' = false.
Proof.
  intros Hpc Hf Hm Hprj.
  change (call_handler (create_unmute_issue_handler k)) with (unmute_issue_handler_body k).
  unfold unmute_issue_handler_body, objects_get, call_on, save. monad.
  cbn -[IssueStateManager.unmute row]; unfold fst, snd.
  pose proof (row_id _ _ _ Hf) as Hk.
  rewrite Hf, (unmute_muted true r p Hm), Hk, Hpc, Hprj. cbv zeta.
  destruct (alert_on_unmute prj); cbn -[row].
  all: rewrite Hk, (row_exists _ _ _ Hf).
  all: do 2 eexists; split; [reflexivity|].
  all: eexists; split; [by apply (row_replaced k db r _ Hf)|done].
Qed.

(** C6. [IssueStateManager.unmute] applied to an issue that is not muted
    returns and changes neither the issue, nor the registry, nor the alert
    queue; and when the unmute handler of one issue is called any number of
    times in a row, as when several of its conditions become true at once, at
    most one alert for that issue is queued. *)
Theorem C6_unmute_idempotent :
  (∀ triggered_by_event issue p, is_muted issue = false →
     IssueStateManager.unmute triggered_by_event (issue, p) = (Return tt, (issue, p)))
  ∧ (∀ n issue_id db p,
       let p' := (for_each (replicate n (create_unmute_issue_handler issue_id))
                    call_handler (db, p)).2.2 in
       alert_queue p' = alert_queue p ∨ alert_queue p' = alert_queue p ++ [issue_id]).
Proof.
  split; [intros; by apply unmute_not_muted|].
  intros [|n] k db p; [by left|].
  cbn [replicate for_each]. monad.
  change (call_handler (create_unmute_issue_handler k)) with (unmute_issue_handler_body k).
  destruct (handler_body_effect k db p) as (o & db' & p' & -> & Hq & Hr).
  destruct o as [[]|e]; cbv beta iota zeta; [|done].
  destruct (Hr eq_refl) as (r & Hf & Hm).
  destruct (handlers_after_unmuted n k db' p' r Hf Hm) as (db'' & Heq).
  rewrite Heq. done.
Qed.

(** The statement applied to the sample issue, once muted and once unmuted. *)
Lemma C6_unmute_idempotent_witness :
  IssueStateManager.unmute true (Sample.open_issue, Sample.muted_process)
    = (Return tt, (Sample.open_issue, Sample.muted_process))
  ∧ alert_queue (for_each (replicate 3 (create_unmute_issue_handler 1%N)) call_handler
                   ([Sample.muted_issue], Sample.muted_process)).2.2 = [1%N].
Proof.
  split.
  - apply (proj1 C6_unmute_idempotent). reflexivity.
  - destruct (proj2 C6_unmute_idempotent 3%nat 1%N [Sample.muted_issue] Sample.muted_process)
      as [Hq|Hq]; [|exact Hq].
    vm_compute in Hq. discriminate Hq.
Defined.

(** ** [IssueStateManager.set_unmute_handlers] and [mute] *)

Section Mute.
Context `{Libraries}.

Lemma register_loop_ok issue_id now vbcs pc :
  Forall (λ vbc, already_true pc (timetuple now) vbc = false) vbcs →
  register_loop issue_id now vbcs pc =
    (Return tt,
     PeriodCounter.with_listeners
       (PeriodCounter.event_listeners pc ++ map (unmute_listener_for issue_id false) vbcs) pc).
Proof.
  revert pc. induction vbcs as [|vbc vbcs IH]; intros pc Hall.
  - cbn. rewrite app_nil_r. by destruct pc.
  - inversion Hall as [|? ? Hv Hrest]; subst.
    unfold register_loop in *. cbn [for_each]. monad.
    unfold PeriodCounter.add_event_listener at 1. cbv beta iota zeta.
    unfold already_true in Hv. rewrite Hv.
    rewrite IH; [|exact Hrest].
    cbn. unfold PeriodCounter.with_listeners. cbn. rewrite <- app_assoc. reflexivity.
Qed.

(** The loop stops at the first condition that is already true, after its
    listener has been added. *)
Lemma register_loop_raise issue_id now pre vbc post pc :
  Forall (λ vbc, already_true pc (timetuple now) vbc = false) pre →
  already_true pc (timetuple now) vbc = true →
  register_loop issue_id now (pre ++ vbc :: post) pc =
    (Raise (Exception "The unmute condition is already true"),
     PeriodCounter.with_listeners
       (PeriodCounter.event_listeners pc ++ map (unmute_listener_for issue_id false) pre
          ++ [unmute_listener_for issue_id true vbc]) pc).
Proof.
  revert pc. induction pre as [|v pre IH]; intros pc Hall Ht.
  - unfold register_loop. cbn [app for_each map]. monad.
    unfold PeriodCounter.add_event_listener at 1. cbv beta iota zeta.
    unfold already_true in Ht. rewrite Ht. reflexivity.
  - inversion Hall as [|? ? Hv Hrest]; subst.
    unfold register_loop in *. cbn [app for_each]. monad.
    unfold PeriodCounter.add_event_listener at 1. cbv beta iota zeta.
    unfold already_true in Hv. rewrite Hv.
    rewrite IH; [|exact Hrest|exact Ht].
    cbn. unfold PeriodCounter.with_listeners. cbn. rewrite <- app_assoc. reflexivity.
Qed.

Lemma set_unmute_handlers_unfold now issue p :
  IssueStateManager.set_unmute_handlers now (issue, p) =
  match by_issue p !! id issue with
  | None => (Raise KeyError, (issue, p))
  | Some pc =>
      match conditions_from_json (unmute_on_volume_based_conditions issue) with
      | inl e => (Raise e, (issue, set_by_issue (<[id issue := pc]> (by_issue p)) p))
      | inr vbcs =>
          let '(r, pc') := register_loop (id issue) now vbcs pc in
          (r, (issue, set_by_issue (<[id issue := pc']> (by_issue p)) p))
      end
  end.
Proof.
  unfold IssueStateManager.set_unmute_handlers, on_issue_pc, register_loop. monad.
  cbv beta iota zeta delta [fst snd].
  destruct (by_issue p !! id issue) as [pc|]; [|reflexivity].
  destruct (conditions_from_json _) as [e|vbcs]; [reflexivity|].
  destruct (for_each _ _ _) as [r pc']. reflexivity.
Qed.

(** [set_unmute_handlers] does not assign to the issue. *)
Lemma set_unmute_handlers_issue now issue p :
  ∃ o p', IssueStateManager.set_unmute_handlers now (issue, p) = (o, (issue, p'))
          ∧ alert_queue p' = alert_queue p.
Proof.
  rewrite set_unmute_handlers_unfold.
  destruct (by_issue p !! id issue) as [pc|]; [|by eauto].
  destruct (conditions_from_json _) as [e|vbcs]; [by eauto|].
  destruct (register_loop _ _ _ _) as [r pc']. by eauto.
Qed.

(** Putting a counter back where it was read leaves the process as it was. *)
Lemma set_by_issue_same p k pc :
  by_issue p !! k = Some pc → set_by_issue (<[k := pc]> (by_issue p)) p = p.
Proof. intros Hpc. unfold set_by_issue. rewrite (insert_id _ _ _ Hpc). by destruct p. Qed.

Lemma mute_unfold conds tup now issue p :
  IssueStateManager.mute conds tup now (issue, p) =
  if is_resolved issue
  then (Raise (IncongruentStateException "Cannot mute a resolved issue"), (issue, p))
  else
    match IssueStateManager.set_unmute_handlers now (muted_with conds issue, p) with
    | (Return _, (i2, p2)) =>
        match tup with
        | (Some n, Some pn) =>
            match dateutil_kwargs_map !! pn with
            | None => (Raise KeyError, (i2, p2))
            | Some kw =>
                match relativedelta_add now kw n with
                | inl e => (Raise e, (i2, p2))
                | inr dt => (Return tt, (set_unmute_after (Some dt) i2, p2))
                end
            end
        | _ => (Return tt, (i2, p2))
        end
    | (Raise e, s) => (Raise e, s)
    end.
Proof.
  unfold IssueStateManager.mute, add_periods_to_datetime, muted_with. monad.
  cbv beta iota zeta delta [fst snd].
  destruct (is_resolved issue); [reflexivity|].
  destruct (IssueStateManager.set_unmute_handlers now _) as [[[]|e] [i2 p2]]; [|reflexivity].
  destruct tup as [[n|] [pn|]]; try reflexivity.
  destruct (dateutil_kwargs_map !! pn); [|reflexivity].
  by destruct (relativedelta_add now _ n).
Qed.

Lemma period_keyword pn :
  pn ∈ ["year"; "month"; "week"; "day"; "hour"; "minute"] →
  dateutil_kwargs_map !! pn = Some (pn +:+ "s").
Proof.
  intros Hin. repeat (apply elem_of_cons in Hin as [->|Hin]; [by vm_compute|]).
  by apply elem_of_nil in Hin.
Qed.

Lemma period_unknown pn :
  pn ∉ ["year"; "month"; "week"; "day"; "hour"; "minute"] →
  dateutil_kwargs_map !! pn = None.
Proof.
  intros Hpn. unfold dateutil_kwargs_map. apply not_elem_of_list_to_map_1.
  cbn [fmap list_fmap fst]. exact Hpn.
Qed.

(** The keyword [add_periods_to_datetime] passes to [relativedelta]: the
    period name in the plural, for the six names it knows. *)
Lemma period_lookup pn :
  dateutil_kwargs_map !! pn =
    if bool_decide (pn ∈ ["year"; "month"; "week"; "day"; "hour"; "minute"])
    then Some (pn +:+ "s") else None.
Proof.
  case_bool_decide as Hpn; [by apply period_keyword|by apply period_unknown].
Qed.


(** [mute] with a condition that is already true raises after the listeners
    up to and including that condition have been added to the registry. *)
Lemma mute_already_true_effect conds tup now issue p pc pre vbc post :
  is_resolved issue = false →
  conditions_from_json conds = inr (pre ++ vbc :: post) →
  by_issue p !! id issue = Some pc →
  Forall (λ vbc, already_true pc (timetuple now) vbc = false) pre →
  already_true pc (timetuple now) vbc = true →
  ∃ p', IssueStateManager.mute conds tup now (issue, p) =
          (Raise (Exception "The unmute condition is already true"), (muted_with conds issue, p')) ∧
    by_issue p' !! id issue =
      Some (PeriodCounter.with_listeners
              (PeriodCounter.event_listeners pc ++ map (unmute_listener_for (id issue) false) pre
                 ++ [unmute_listener_for (id issue) true vbc]) pc).
Proof.
  intros Hres Hjson Hpc Hpre Htrue.
  rewrite mute_unfold, Hres, set_unmute_handlers_unfold.
  change (id (muted_with conds issue)) with (id issue).
  change (unmute_on_volume_based_conditions (muted_with conds issue)) with conds.
  rewrite Hpc, Hjson, (register_loop_raise _ _ _ _ _ _ Hpre Htrue).
  eexists. split; [reflexivity|]. cbn. apply lookup_insert_eq.
Qed.

(** C3. [IssueStateManager.mute] on an unresolved issue. Whatever follows,
    the issue has [is_muted] true and the given text in
    [unmute_on_volume_based_conditions], its other fields but [unmute_after]
    are as before, and no alert is queued. Without a counter for the issue
    in the registry it raises [KeyError], and with a text that does not
    decode the exception of the decoding; the registry is then as before.
    With a counter and a text that decodes, and no condition already true at
    [now], the counter has one more listener per condition, in order,
    carrying the condition's period, nr_of_periods and volume, the purpose
    [UNMUTE_PURPOSE] and the handler of [create_unmute_issue_handler], which
    unmutes the stored issue when called; with both parts of
    [unmute_after_tuple] given, a period name among year, month, week, day,
    hour and minute, and a date that [relativedelta] can compute, it then
    returns with [unmute_after] at [now] advanced by that many periods; with
    a part missing it returns and [unmute_after] is as before; another period
    name raises [KeyError] and a date out of range the exception of
    [datetime]. With a condition that is already true it raises after the
    listeners up to that condition have been registered. Whenever it raises,
    [unmute_after] is as before. *)
Theorem C3_mute_effect issue p conds nr_of_periods period_name now :
  is_resolved issue = false →
  ∃ o issue' p',
    IssueStateManager.mute conds (nr_of_periods, period_name) now (issue, p)
      = (o, (issue', p')) ∧
    is_muted issue' = true ∧
    unmute_on_volume_based_conditions issue' = conds ∧
    (id issue', project issue', is_resolved issue', is_resolved_by_next_release issue',
     fixed_at issue')
      = (id issue, project issue, is_resolved issue, is_resolved_by_next_release issue,
         fixed_at issue) ∧
    alert_queue p' = alert_queue p ∧
    (∀ e, o = Raise e → unmute_after issue' = unmute_after issue) ∧
    match by_issue p !! id issue, conditions_from_json conds with
    | None, _ => o = Raise KeyError ∧ p' = p
    | Some pc, inl e => o = Raise e ∧ p' = p
    | Some pc, inr vbcs =>
        (Forall (λ vbc, already_true pc (timetuple now) vbc = false) vbcs →
           by_issue p' =
             <[id issue := PeriodCounter.with_listeners
                 (PeriodCounter.event_listeners pc
                    ++ map (unmute_listener_for (id issue) false) vbcs) pc]>
               (by_issue p) ∧
           (∀ db r prj, row (id issue) db = Some r → is_muted r = true → project r = Some prj →
              ∃ db' p'', call_handler (create_unmute_issue_handler (id issue)) (db, p')
                           = (Return tt, (db', p'')) ∧
                ∃ r', row (id issue) db' = Some r' ∧ is_muted r' = false) ∧
           match nr_of_periods, period_name with
           | Some n, Some pn =>
               if bool_decide (pn ∈ ["year"; "month"; "week"; "day"; "hour"; "minute"])
               then match relativedelta_add now (pn +:+ "s") n with
                    | inr dt => o = Return tt ∧ unmute_after issue' = Some dt
                    | inl e => o = Raise e
                    end
               else o = Raise KeyError
           | _, _ => o = Return tt ∧ unmute_after issue' = unmute_after issue
           end) ∧
        (∀ pre vbc post, vbcs = pre ++ vbc :: post →
           Forall (λ vbc, already_true pc (timetuple now) vbc = false) pre →
           already_true pc (timetuple now) vbc = true →
           o = Raise (Exception "The unmute condition is already true") ∧
           by_issue p' =
             <[id issue := PeriodCounter.with_listeners
                 (PeriodCounter.event_listeners pc
                    ++ map (unmute_listener_for (id issue) false) pre
                    ++ [unmute_listener_for (id issue) true vbc]) pc]>
               (by_issue p))
    end.
Proof.
  intros Hres.
  assert (Hif : ∀ (A : Type) (x y : A), (if is_resolved issue then x else y) = y)
    by (intros; by rewrite Hres).
  rewrite mute_unfold, Hif, set_unmute_handlers_unfold.
  change (id (muted_with conds issue)) with (id issue).
  change (unmute_on_volume_based_conditions (muted_with conds issue)) with conds.
  destruct (by_issue p !! id issue) as [pc|] eqn:Hpc.
  2: { eexists _, _, _. split; [reflexivity|]. by repeat split. }
  destruct (conditions_from_json conds) as [e|vbcs] eqn:Hjson.
  { rewrite (set_by_issue_same p (id issue) pc Hpc).
    eexists _, _, _. split; [reflexivity|]. by repeat split. }
  destruct (register_loop (id issue) now vbcs pc) as [[[]|e] pc'] eqn:Hloop.
  - (* the loop returned *)
    set (p2 := set_by_issue _ p).
    assert (Hrest : ∀ o i', (∀ e, o = Raise e → unmute_after i' = unmute_after issue) →
      is_muted i' = true → unmute_on_volume_based_conditions i' = conds →
      (id i', project i', is_resolved i', is_resolved_by_next_release i', fixed_at i')
        = (id issue, project issue, is_resolved issue, is_resolved_by_next_release issue,
           fixed_at issue) →
      (Forall (λ vbc, already_true pc (timetuple now) vbc = false) vbcs →
         match nr_of_periods, period_name with
         | Some n, Some pn =>
             if bool_decide (pn ∈ ["year"; "month"; "week"; "day"; "hour"; "minute"])
             then match relativedelta_add now (pn +:+ "s") n with
                  | inr dt => o = Return tt ∧ unmute_after i' = Some dt
                  | inl e => o = Raise e
                  end
             else o = Raise KeyError
         | _, _ => o = Return tt ∧ unmute_after i' = unmute_after issue
         end) →
      ∃ o0 issue' p',
        (o, (i', p2)) = (o0, (issue', p')) ∧ is_muted issue' = true ∧
        unmute_on_volume_based_conditions issue' = conds ∧
        (id issue', project issue', is_resolved issue', is_resolved_by_next_release issue',
         fixed_at issue')
          = (id issue, project issue, is_resolved issue, is_resolved_by_next_release issue,
             fixed_at issue) ∧
        alert_queue p' = alert_queue p ∧
        (∀ e, o0 = Raise e → unmute_after issue' = unmute_after issue) ∧
        (Forall (λ vbc, already_true pc (timetuple now) vbc = false) vbcs →
           by_issue p' =
             <[id issue := PeriodCounter.with_listeners
                 (PeriodCounter.event_listeners pc
                    ++ map (unmute_listener_for (id issue) false) vbcs) pc]>
               (by_issue p) ∧
           (∀ db r prj, row (id issue) db = Some r → is_muted r = true → project r = Some prj →
              ∃ db' p'', call_handler (create_unmute_issue_handler (id issue)) (db, p')
                           = (Return tt, (db', p'')) ∧
                ∃ r', row (id issue) db' = Some r' ∧ is_muted r' = false) ∧
           match nr_of_periods, period_name with
           | Some n, Some pn =>
               if bool_decide (pn ∈ ["year"; "month"; "week"; "day"; "hour"; "minute"])
               then match relativedelta_add now (pn +:+ "s") n with
                    | inr dt => o0 = Return tt ∧ unmute_after issue' = Some dt
                    | inl e => o0 = Raise e
                    end
               else o0 = Raise KeyError
           | _, _ => o0 = Return tt ∧ unmute_after issue' = unmute_after issue
           end) ∧
        (∀ pre vbc post, vbcs = pre ++ vbc :: post →
           Forall (λ vbc, already_true pc (timetuple now) vbc = false) pre →
           already_true pc (timetuple now) vbc = true →
           o0 = Raise (Exception "The unmute condition is already true") ∧
           by_issue p' =
             <[id issue := PeriodCounter.with_listeners
                 (PeriodCounter.event_listeners pc
                    ++ map (unmute_listener_for (id issue) false) pre
                    ++ [unmute_listener_for (id issue) true vbc]) pc]>
               (by_issue p))).
    { intros o i' Hraise Hm Hc Hkeep Hperiods. exists o, i', p2.
      split; [reflexivity|]. split; [exact Hm|]. split; [exact Hc|]. split; [exact Hkeep|].
      split; [reflexivity|]. split; [exact Hraise|]. split.
      - intros Hfalse. rewrite (register_loop_ok _ _ _ _ Hfalse) in Hloop.
        injection Hloop as <-. split; [reflexivity|]. split; [|by apply Hperiods].
        intros db r prj. eapply handler_unmutes_muted_row. subst p2. cbn.
        apply lookup_insert_eq.
      - intros pre vbc post -> Hpre Htrue.
        rewrite (register_loop_raise _ _ _ _ _ _ Hpre Htrue) in Hloop. discriminate Hloop. }
    destruct nr_of_periods as [n|], period_name as [pn|];
      try (apply Hrest; [by intros e|reflexivity|reflexivity|reflexivity|by intros _]).
    rewrite period_lookup. case_bool_decide as Hpn.
    + destruct (relativedelta_add now (pn +:+ "s") n) as [e|dt] eqn:Hdt.
      * apply Hrest; [by intros e'|reflexivity|reflexivity|reflexivity|by intros _].
      * apply Hrest; [by intros e'|reflexivity|reflexivity|reflexivity|by intros _].
    + apply Hrest; [by intros e'|reflexivity|reflexivity|reflexivity|by intros _].
  - (* the loop raised *)
    eexists _, _, _. split; [reflexivity|]. split; [reflexivity|]. split; [reflexivity|].
    split; [reflexivity|]. split; [reflexivity|]. split; [by intros e'|]. split.
    + intros Hfalse. rewrite (register_loop_ok _ _ _ _ Hfalse) in Hloop. discriminate Hloop.
    + intros pre vbc post -> Hpre Htrue.
      rewrite (register_loop_raise _ _ _ _ _ _ Hpre Htrue) in Hloop.
      injection Hloop as <- <-. by split.
Qed.

End Mute.

(** The sample issue muted for two days with the sample condition. *)
Lemma C3_mute_effect_witness :
  ∃ o issue' p',
    @IssueStateManager.mute Sample.libraries Sample.three_per_day_json
        (Some 2, Some "day") Sample.noon (Sample.open_issue, Sample.quiet_process)
      = (o, (issue', p')) ∧
    o = Return tt ∧
    is_muted issue' = true ∧
    unmute_listeners p' 1%N = [unmute_listener_for 1%N false Sample.three_per_day] ∧
    inr <$> unmute_after issue' = Some (@relativedelta_add Sample.libraries Sample.noon "days" 2).
Proof.
  destruct (@C3_mute_effect Sample.libraries Sample.open_issue Sample.quiet_process
              Sample.three_per_day_json (Some 2) (Some "day") Sample.noon eq_refl)
    as (o & issue' & p' & Hrun & Hmuted & _ & _ & _ & _ & Hcases).
  assert (Hthere :
    Forall (λ vbc, already_true Sample.quiet_counter (timetuple Sample.noon) vbc = false)
      [Sample.three_per_day] →
    by_issue p' =
      <[1%N := PeriodCounter.with_listeners
          (PeriodCounter.event_listeners Sample.quiet_counter
             ++ map (unmute_listener_for 1%N false) [Sample.three_per_day])
          Sample.quiet_counter]> (by_issue Sample.quiet_process) ∧
    (∀ db r prj, row 1%N db = Some r → is_muted r = true → project r = Some prj →
       ∃ db' p'', call_handler (create_unmute_issue_handler 1%N) (db, p')
                    = (Return tt, (db', p'')) ∧
         ∃ r', row 1%N db' = Some r' ∧ is_muted r' = false) ∧
    o = Return tt ∧
    unmute_after issue'
      = Some {| year := 2024; month := 5; day := 19; hour := 12; minute := 0; second := 0;
                microsecond := 0 |}) by exact (proj1 Hcases).
  destruct Hthere as (Hreg & _ & Ho & Hafter); [repeat constructor|].
  exists o, issue', p'. split; [exact Hrun|]. split; [exact Ho|]. split; [exact Hmuted|].
  split; [|by rewrite Hafter].
  unfold unmute_listeners. rewrite Hreg. reflexivity.
Defined.

(** C3, as first stated, at a condition that is already true: the sample
    issue is unresolved and both parts of [unmute_after_tuple] are given, yet
    [mute] raises at the first of the two conditions, registers a listener
    for that one only, and leaves [unmute_after] unset. *)
Lemma C3_mute_already_true_counterexample :
  let r := @IssueStateManager.mute Sample.libraries Sample.two_conditions_json
             (Some 2, Some "day") Sample.noon (Sample.open_issue, Sample.busy_process) in
  is_resolved Sample.open_issue = false ∧
  @conditions_from_json Sample.libraries Sample.two_conditions_json
    = inr [Sample.three_per_day; Sample.hundred_per_year] ∧
  r.1 = Raise (Exception "The unmute condition is already true") ∧
  unmute_listeners r.2.2 1%N = [unmute_listener_for 1%N true Sample.three_per_day] ∧
  unmute_after r.2.1 = None ∧
  ¬ (r.1 = Return tt ∧
     length (unmute_listeners r.2.2 1%N) = 2%nat ∧
     inr <$> unmute_after r.2.1
       = Some (@relativedelta_add Sample.libraries Sample.noon "days" 2)).
Proof.
  vm_compute. repeat split; try reflexivity. intros (Hret & _). discriminate Hret.
Qed.

(** C4. [mute] with a condition that is already true: the sample issue, whose
    counter has seen 10 events, is muted until 3 events arrive in a day. Both
    managers raise, and the registry, which held no unmute listener for the
    issue, holds one afterwards; the queryset manager has also written
    [is_muted] and the conditions to the table. *)
Theorem C4_failed_mute_is_not_undone :
  let single := @IssueStateManager.mute Sample.libraries Sample.three_per_day_json
                  (None, None) Sample.noon (Sample.open_issue, Sample.busy_process) in
  let bulk := @IssueQuerysetStateManager.mute Sample.libraries (pk_in [1%N])
                Sample.three_per_day_json (None, None) Sample.noon
                ([Sample.open_issue], Sample.busy_process) in
  unmute_listeners Sample.busy_process 1%N = [] ∧
  single.1 = Raise (Exception "The unmute condition is already true") ∧
  unmute_listeners single.2.2 1%N = [unmute_listener_for 1%N true Sample.three_per_day] ∧
  bulk.1 = Raise (Exception "The unmute condition is already true") ∧
  unmute_listeners bulk.2.2 1%N = [unmute_listener_for 1%N true Sample.three_per_day] ∧
  bulk.2.1 = [Sample.muted_issue].
Proof. vm_compute. repeat split; reflexivity. Qed.

(** ** [IssueQuerysetStateManager] *)

Lemma update_run (qs : QuerySet) f db p :
  update qs f (db, p) = (Return tt, (map (λ r, if qs r then f r else r) db, p)).
Proof. reflexivity. Qed.

Lemma call_on_run (m : M (Issue * Process) unit) x (db : Table) p :
  call_on x m (db, p) =
  match m (x, p) with
  | (Return _, (x', p')) => (Return x', (db, p'))
  | (Raise e, (_, p')) => (Raise e, (db, p'))
  end.
Proof. reflexivity. Qed.

(** A loop that calls a single-object method on each fetched issue does not
    write to the table. *)
Lemma for_each_call_on_table (m : M (Issue * Process) unit) issues db p :
  ∃ o p', for_each issues (λ issue, call_on issue m;; mret tt) (db, p) = (o, (db, p')).
Proof.
  revert p. induction issues as [|x issues IH]; intros p; [by eexists _, _|].
  cbn [for_each]. monad. rewrite call_on_run.
  destruct (m (x, p)) as [[[]|e] [x' p']]; [apply IH|by eexists _, _].
Qed.

Lemma for_each_unmute_noop t issues db p :
  Forall (λ x, is_muted x = false) issues →
  for_each issues (λ issue, call_on issue (IssueStateManager.unmute t);; mret tt) (db, p)
    = (Return tt, (db, p)).
Proof.
  induction 1 as [|x issues Hx _ IH]; [reflexivity|].
  cbn [for_each]. monad. rewrite call_on_run, (unmute_not_muted t x p Hx). exact IH.
Qed.

(** The rows a queryset selects after it was used to clear [is_muted]. *)
Lemma fetched_after_clear (qs : QuerySet) (db : Table) :
  Forall (λ x, is_muted x = false)
    (List.filter qs (map (λ r, if qs r then cleared r else r) db)).
Proof.
  apply Forall_forall. intros x Hx. apply list_elem_of_In, filter_In in Hx as [Hin Hqs].
  apply in_map_iff in Hin as (r & <- & _).
  destruct (qs r) eqn:Hr; [reflexivity|congruence].
Qed.

(** For every queryset, [unmute] clears the selected rows and returns; its
    loop finds no muted issue, so the registry and the alert queue stay as
    they were. *)
Lemma queryset_unmute_run (qs : QuerySet) t db p :
  IssueQuerysetStateManager.unmute qs t (db, p)
    = (Return tt, (map (λ r, if qs r then cleared r else r) db, p)).
Proof.
  unfold IssueQuerysetStateManager.unmute, fetch. monad.
  rewrite update_run. cbv beta iota zeta delta [fst snd].
  apply for_each_unmute_noop, fetched_after_clear.
Qed.

(** C2. The registry and the stored conditions after a completed queryset
    operation: the sample issue, muted through
    [IssueQuerysetStateManager.mute] and then unmuted through
    [IssueQuerysetStateManager.unmute], is stored with [is_muted] false, no
    conditions and no [unmute_after], while the registry still holds its
    unmute listener. [IssueStateManager.unmute] on the same state removes it. *)
Theorem C2_queryset_unmute_keeps_listener :
  let muted := @IssueQuerysetStateManager.mute Sample.libraries (pk_in [1%N])
                 Sample.three_per_day_json (None, None) Sample.noon
                 ([Sample.open_issue], Sample.quiet_process) in
  let unmuted := IssueQuerysetStateManager.unmute (pk_in [1%N]) false muted.2 in
  let single := IssueStateManager.unmute false (Sample.muted_issue, muted.2.2) in
  muted = (Return tt, ([Sample.muted_issue], Sample.muted_process)) ∧
  unmuted.1 = Return tt ∧
  unmuted.2.1 = [Sample.open_issue] ∧
  unmute_listeners unmuted.2.2 1%N = [unmute_listener_for 1%N false Sample.three_per_day] ∧
  single.1 = Return tt ∧
  unmute_listeners single.2.2 1%N = [].
Proof. vm_compute. repeat split; reflexivity. Qed.


(** ** Line-separated lists *)

Lemma string_app_nil (s : string) : "" +:+ s = s.
Proof. reflexivity. Qed.

Lemma string_app_cons c (s1 s2 : string) : String c s1 +:+ s2 = String c (s1 +:+ s2).
Proof. reflexivity. Qed.

Lemma string_app_length (s1 s2 : string) :
  String.length (s1 +:+ s2) = (String.length s1 + String.length s2)%nat.
Proof.
  induction s1 as [|c s1 IH]; [done|].
  rewrite string_app_cons. cbn [String.length]. by rewrite IH.
Qed.

Lemma split_lines_nonempty cur s : split_lines cur s ≠ [].
Proof.
  revert cur. induction s as [|c s IH]; intros cur; cbn [split_lines]; [done|].
  destruct (Ascii.eqb c "010"); [done|apply IH].
Qed.

(** Parsing drops what follows the last newline, so writing the parsed list
    back never yields a longer text. *)
Lemma serialize_parse_length cur s :
  (String.length (serialize_lines (removelast (split_lines cur s)))
     ≤ String.length cur + String.length s)%nat.
Proof.
  revert cur. induction s as [|c s IH]; intros cur; cbn [split_lines].
  - cbn. lia.
  - destruct (Ascii.eqb c "010").
    + pose proof (split_lines_nonempty EmptyString s) as Hne.
      specialize (IH EmptyString).
      destruct (split_lines EmptyString s) as [|x l]; [done|].
      change (removelast (cur :: x :: l)) with (cur :: removelast (x :: l)).
      change (serialize_lines (cur :: removelast (x :: l)))
        with (cur +:+ LF +:+ serialize_lines (removelast (x :: l))).
      rewrite !string_app_length. cbn [String.length LF] in *. lia.
    + specialize (IH (cur +:+ String c EmptyString)).
      rewrite string_app_length in IH. cbn [String.length] in *. lia.
Qed.

Lemma serialize_lines_snoc l e :
  serialize_lines (l ++ [e]) = serialize_lines l +:+ e +:+ LF.
Proof.
  induction l as [|x l IH].
  - cbn [app serialize_lines fold_right]. rewrite string_app_nil.
    induction e as [|c e IHe]; [done|]. rewrite !string_app_cons. by rewrite IHe.
  - change (serialize_lines ((x :: l) ++ [e])) with (x +:+ LF +:+ serialize_lines (l ++ [e])).
    change (serialize_lines (x :: l)) with (x +:+ LF +:+ serialize_lines l).
    rewrite IH. generalize (serialize_lines l). intros t.
    induction x as [|c x IHx]; [done|]. rewrite !string_app_cons. by rewrite IHx.
Qed.

(** [add_fixed_at] lengthens [fixed_at] by at most the release and a newline. *)
Lemma add_fixed_at_length release i :
  (String.length (fixed_at (add_fixed_at release i))
     ≤ String.length (fixed_at i) + String.length release + 1)%nat.
Proof.
  unfold add_fixed_at, get_fixed_at, parse_lines. case_bool_decide; [lia|].
  cbn [fixed_at set_fixed_at]. rewrite serialize_lines_snoc, !string_app_length.
  pose proof (serialize_parse_length EmptyString (fixed_at i)).
  cbn [String.length LF] in *. lia.
Qed.

Lemma add_fixed_at_listed release i :
  release ∈ get_fixed_at i → add_fixed_at release i = i.
Proof. intros Hin. unfold add_fixed_at. by rewrite bool_decide_eq_true_2. Qed.


Lemma string_app_nil_r (s : string) : s +:+ "" = s.
Proof. induction s as [|c s IH]; [done|]. by rewrite string_app_cons, IH. Qed.

Lemma string_app_assoc (s1 s2 s3 : string) : (s1 +:+ s2) +:+ s3 = s1 +:+ s2 +:+ s3.
Proof. induction s1 as [|c s1 IH]; [done|]. by rewrite !string_app_cons, IH. Qed.

Lemma has_newline_app s1 s2 :
  has_newline (s1 +:+ s2) = has_newline s1 || has_newline s2.
Proof.
  induction s1 as [|c s1 IH]; [done|].
  rewrite string_app_cons. cbn [has_newline]. by rewrite IH, orb_assoc.
Qed.

(** Reading an entry that has no newline, up to the newline that ends it. *)
Lemma split_lines_entry e cur rest :
  has_newline e = false →
  split_lines cur (e +:+ LF +:+ rest) = (cur +:+ e) :: split_lines EmptyString rest.
Proof.
  revert cur. induction e as [|c e IH]; intros cur He.
  - rewrite string_app_nil, string_app_nil_r. reflexivity.
  - cbn [has_newline] in He. apply orb_false_elim in He as [Hc He].
    rewrite string_app_cons. cbn [split_lines]. rewrite Hc, (IH _ He).
    by rewrite string_app_assoc.
Qed.

Lemma split_serialize l :
  Forall (λ e, has_newline e = false) l →
  split_lines EmptyString (serialize_lines l) = l ++ [EmptyString].
Proof.
  induction 1 as [|e l He _ IH]; [reflexivity|].
  change (serialize_lines (e :: l)) with (e +:+ LF +:+ serialize_lines l).
  by rewrite (split_lines_entry e _ _ He), IH.
Qed.

(** Round trip: parsing what was serialised gives the list back. *)
Lemma parse_serialize l :
  Forall (λ e, has_newline e = false) l → parse_lines (serialize_lines l) = l.
Proof.
  intros Hl. unfold parse_lines. rewrite (split_serialize l Hl). apply removelast_last.
Qed.

Lemma split_lines_no_newline cur s :
  has_newline cur = false → Forall (λ e, has_newline e = false) (split_lines cur s).
Proof.
  revert cur. induction s as [|c s IH]; intros cur Hcur; cbn [split_lines].
  - by constructor.
  - destruct (Ascii.eqb c "010") eqn:Hc.
    + constructor; [done|]. by apply IH.
    + apply IH. rewrite has_newline_app, Hcur. cbn [has_newline]. by rewrite Hc.
Qed.

Lemma parse_lines_no_newline s : Forall (λ e, has_newline e = false) (parse_lines s).
Proof.
  unfold parse_lines.
  pose proof (split_lines_no_newline EmptyString s eq_refl) as Hall.
  pose proof (split_lines_nonempty EmptyString s) as Hne.
  destruct (exists_last Hne) as (l & x & Heq). rewrite Heq in *.
  rewrite removelast_last. by apply Forall_app in Hall as [Hl _].
Qed.

Lemma add_fixed_at_get release_version (i : Issue) :
  has_newline release_version = false →
  get_fixed_at (add_fixed_at release_version i)
    = (if bool_decide (release_version ∈ get_fixed_at i)
       then get_fixed_at i else get_fixed_at i ++ [release_version]).
Proof.
  intros Hv. unfold add_fixed_at. case_bool_decide as Hin; [reflexivity|].
  unfold get_fixed_at at 1. cbn [fixed_at set_fixed_at].
  apply parse_serialize, Forall_app. split; [apply parse_lines_no_newline|].
  by constructor.
Qed.

Lemma add_fixed_at_in release_version (i : Issue) :
  has_newline release_version = false →
  release_version ∈ get_fixed_at (add_fixed_at release_version i).
Proof.
  intros Hv. rewrite (add_fixed_at_get _ _ Hv).
  case_bool_decide; [done|]. apply elem_of_app. right. apply list_elem_of_here.
Qed.

(** ** The two managers on one issue *)

(** The object [unmute] leaves is the one given, or that one cleared. *)
Lemma unmute_issue_cases t i p :
  (IssueStateManager.unmute t (i, p)).2.1 = i ∨
  (IssueStateManager.unmute t (i, p)).2.1 = cleared i.
Proof.
  destruct (is_muted i) eqn:Hm.
  - right. rewrite (unmute_muted t i p Hm).
    destruct (by_issue p !! id i) as [pc|]; [|done].
    destruct t; [|done]. destruct (project i) as [prj|]; [|done].
    by destruct (alert_on_unmute prj).
  - left. by rewrite (unmute_not_muted t i p Hm).
Qed.

Lemma pk_in_self x issue : id x = id issue → pk_in [id issue] x = true.
Proof. intros Hid. unfold pk_in. rewrite Hid. apply bool_decide_eq_true_2, list_elem_of_here. Qed.

Lemma row_singleton (x : Issue) : row (id x) [x] = Some x.
Proof. unfold row. cbn [List.find]. by rewrite N.eqb_refl. Qed.

Section Resolve.
Context `{Libraries}.

Lemma resolve_at_singleton release_version issue p :
  IssueQuerysetStateManager._resolve_at (pk_in [id issue]) release_version ([issue], p)
    = (Return tt, ([resolve_at_row release_version issue], p)).
Proof.
  unfold IssueQuerysetStateManager._resolve_at, resolve_at_row. monad.
  rewrite !update_run. cbv beta iota zeta. cbn [map].
  unfold filter_qs_for_fixed_at, exclude_qs_for_fixed_at, qs_filter.
  rewrite (pk_in_self issue issue eq_refl). cbn [andb].
  destruct (holds_release release_version (fixed_at issue)).
  - rewrite (pk_in_self (set_is_resolved true issue) issue eq_refl). cbn [andb].
    destruct (negb (holds_release "" (fixed_at (set_is_resolved true issue)))).
    + by rewrite pk_in_self.
    + by rewrite pk_in_self.
  - rewrite (pk_in_self issue issue eq_refl). cbn [andb].
    destruct (negb (holds_release "" (fixed_at issue))).
    + by rewrite pk_in_self.
    + by rewrite pk_in_self.
Qed.

Lemma resolve_at_row_id release_version r : id (resolve_at_row release_version r) = id r.
Proof.
  unfold resolve_at_row. destruct (holds_release release_version (fixed_at r)); cbv zeta iota.
  - by destruct (negb _).
  - by destruct (negb _).
Qed.

(** [IssueQuerysetStateManager.resolve] on a table that holds one issue. *)
Lemma queryset_resolve_singleton issue p :
  IssueQuerysetStateManager.resolve (pk_in [id issue]) ([issue], p)
    = (Return tt, ([cleared (resolve_at_row "" issue)], p)).
Proof.
  unfold IssueQuerysetStateManager.resolve. monad.
  rewrite resolve_at_singleton, queryset_unmute_run. cbn [map].
  by rewrite pk_in_self by apply resolve_at_row_id.
Qed.

Lemma queryset_resolve_by_release_singleton release_version issue p :
  IssueQuerysetStateManager.resolve_by_release (pk_in [id issue]) release_version ([issue], p)
    = (Return tt, ([cleared (resolve_at_row release_version issue)], p)).
Proof.
  unfold IssueQuerysetStateManager.resolve_by_release. monad.
  rewrite resolve_at_singleton, queryset_unmute_run. cbn [map].
  by rewrite pk_in_self by apply resolve_at_row_id.
Qed.

(** The sum of two texts without a number in front is stored as [0]. *)
Lemma F_plus_Value_zero column text :
  sqlite.integer_prefix column = Some 0 →
  sqlite.integer_prefix text = Some 0 →
  F_plus_Value column text = "0".
Proof. intros Hc Ht. unfold F_plus_Value, numeric_type. by rewrite Hc, Ht. Qed.

(** What [_resolve_at] stores for the empty release in a row whose
    [fixed_at] has no number in front. *)
Lemma resolve_at_row_zero issue :
  sqlite.integer_prefix (fixed_at issue) = Some 0 →
  fixed_at (resolve_at_row "" issue) = "0".
Proof.
  intros Hzero. unfold resolve_at_row.
  assert (HLF : sqlite.integer_prefix ("" +:+ LF) = Some 0) by reflexivity.
  destruct (holds_release "" (fixed_at issue)); cbv zeta iota;
    cbn [fixed_at set_is_resolved];
    destruct (negb (holds_release "" (fixed_at issue))); cbn [fixed_at set_fixed_at set_is_resolved];
    rewrite ?(F_plus_Value_zero (fixed_at issue) _ Hzero HLF);
    by rewrite ?(F_plus_Value_zero "0" _ eq_refl HLF).
Qed.

(** The text [_resolve_at] stores is a sum, taken once or twice. *)
Lemma resolve_at_row_sum release_version issue :
  fixed_at (resolve_at_row release_version issue)
    = F_plus_Value (fixed_at issue) (release_version +:+ LF)
  ∨ fixed_at (resolve_at_row release_version issue)
    = F_plus_Value (F_plus_Value (fixed_at issue) (release_version +:+ LF))
        (release_version +:+ LF).
Proof.
  unfold resolve_at_row.
  destruct (holds_release release_version (fixed_at issue)); cbv zeta iota;
    cbn [fixed_at set_is_resolved];
    destruct (negb (holds_release "" (fixed_at issue)));
    cbn [fixed_at set_fixed_at set_is_resolved]; auto.
Qed.

(** A row of an unresolved issue whose [fixed_at] holds the empty release
    and not the given one is not resolved by [_resolve_at]. *)
Lemma resolve_at_row_unresolved release_version issue :
  holds_release "" (fixed_at issue) = true →
  holds_release release_version (fixed_at issue) = false →
  is_resolved (resolve_at_row release_version issue) = is_resolved issue.
Proof. intros Hempty Hv. unfold resolve_at_row. by rewrite Hv, Hempty. Qed.

Lemma single_resolve_lists_empty issue p :
  "" ∈ get_fixed_at (IssueStateManager.resolve (issue, p)).2.1.
Proof.
  change (IssueStateManager.resolve (issue, p))
    with (IssueStateManager.unmute false (add_fixed_at "" (set_is_resolved true issue), p)).
  pose proof (add_fixed_at_in "" (set_is_resolved true issue) eq_refl) as Hin.
  by destruct (unmute_issue_cases false (add_fixed_at "" (set_is_resolved true issue)) p)
    as [-> | ->].
Qed.

(** C1. The two managers on the same issue, alone in the table.
    [IssueQuerysetStateManager.resolve] returns and stores as [fixed_at]
    the text of a number, the sum SQLite computes for
    [F("fixed_at") + Value(...)], taken once or twice; for an issue whose
    [fixed_at] has no number in front, such as a new one, that text is [0],
    a list without entry, whereas the [fixed_at] that
    [IssueStateManager.resolve] leaves lists the empty release, so the
    persisted fields differ. And for an unresolved issue whose [fixed_at]
    holds the empty release and not the given one, the queryset's
    [resolve_by_release] stores [is_resolved] false where the single-object
    one sets it. *)
Theorem C1_queryset_resolve_differs issue p :
  let bulk := IssueQuerysetStateManager.resolve (pk_in [id issue]) ([issue], p) in
  let single := IssueStateManager.resolve (issue, p) in
  (∃ r, bulk = (Return tt, ([r], p)) ∧
     (fixed_at r = F_plus_Value (fixed_at issue) LF ∨
      fixed_at r = F_plus_Value (F_plus_Value (fixed_at issue) LF) LF) ∧
     (sqlite.integer_prefix (fixed_at issue) = Some 0 →
        fixed_at r = "0" ∧ get_fixed_at r = [])) ∧
  "" ∈ get_fixed_at single.2.1 ∧
  (sqlite.integer_prefix (fixed_at issue) = Some 0 →
     persisted_fields <$> row (id issue) bulk.2.1 ≠ Some (persisted_fields single.2.1)) ∧
  (∀ release_version,
     is_resolved issue = false →
     holds_release "" (fixed_at issue) = true →
     holds_release release_version (fixed_at issue) = false →
     is_resolved <$>
       row (id issue)
         (IssueQuerysetStateManager.resolve_by_release (pk_in [id issue]) release_version
            ([issue], p)).2.1 = Some false
     ∧ is_resolved (IssueStateManager.resolve_by_release release_version (issue, p)).2.1 = true).
Proof.
  cbv zeta. rewrite queryset_resolve_singleton. cbn [fst snd].
  assert (Hrow : ∀ x : Issue, id x = id issue → row (id issue) [x] = Some x).
  { intros x <-. apply row_singleton. }
  assert (Hzero : sqlite.integer_prefix (fixed_at issue) = Some 0 →
            fixed_at (cleared (resolve_at_row "" issue)) = "0").
  { intros Hz. exact (resolve_at_row_zero issue Hz). }
  split; [|split; [apply single_resolve_lists_empty|split]].
  - eexists. split; [reflexivity|]. split; [exact (resolve_at_row_sum "" issue)|].
    intros Hz. split; [by apply Hzero|]. unfold get_fixed_at. by rewrite (Hzero Hz).
  - intros Hz. rewrite Hrow by apply resolve_at_row_id. cbn [fmap option_fmap option_map].
    intros [= _ _ Hfixed _ _ _].
    pose proof (single_resolve_lists_empty issue p) as Hin.
    assert (Hsingle : fixed_at (IssueStateManager.resolve (issue, p)).2.1 = "0").
    { rewrite <- (Hzero Hz). symmetry. exact Hfixed. }
    unfold get_fixed_at in Hin. rewrite Hsingle in Hin.
    by apply elem_of_nil in Hin.
  - intros v Hres Hempty Hv. rewrite queryset_resolve_by_release_singleton. cbn [fst snd].
    rewrite Hrow by apply resolve_at_row_id. cbn [fmap option_fmap option_map]. split.
    + f_equal. change (is_resolved (cleared (resolve_at_row v issue)))
        with (is_resolved (resolve_at_row v issue)).
      by rewrite (resolve_at_row_unresolved v issue Hempty Hv).
    + change (IssueStateManager.resolve_by_release v (issue, p))
        with (IssueStateManager.unmute false (add_fixed_at v (set_is_resolved true issue), p)).
      destruct (unmute_effect false (add_fixed_at v (set_is_resolved true issue)) p)
        as (o & i' & p' & -> & _ & _ & Hsame & _). cbn [fst snd]. rewrite Hsame.
      unfold add_fixed_at. by case_bool_decide.
Qed.

End Resolve.

(** A new issue, and an issue fixed at release 2.0 that is resolved at
    release 1.0. *)
Lemma C1_queryset_resolve_differs_witness :
  (∃ r, @IssueQuerysetStateManager.resolve Sample.libraries (pk_in [1%N])
          ([Sample.open_issue], Sample.quiet_process)
        = (Return tt, ([r], Sample.quiet_process))
      ∧ fixed_at r = "0"
      ∧ fixed_at (IssueStateManager.resolve (Sample.open_issue, Sample.quiet_process)).2.1 = LF)
  ∧ (is_resolved <$>
       row 1%N
         (@IssueQuerysetStateManager.resolve_by_release Sample.libraries (pk_in [1%N]) "1.0"
            ([Sample.fixed_issue], Sample.quiet_process)).2.1 = Some false
     ∧ is_resolved
         (IssueStateManager.resolve_by_release "1.0"
            (Sample.fixed_issue, Sample.quiet_process)).2.1 = true).
Proof.
  split.
  - destruct (@C1_queryset_resolve_differs Sample.libraries Sample.open_issue
                Sample.quiet_process) as ((r & Hrun & _ & Hzero) & _).
    destruct (Hzero eq_refl) as [Hfixed _].
    exists r. split; [exact Hrun|]. split; [exact Hfixed|reflexivity].
  - destruct (@C1_queryset_resolve_differs Sample.libraries Sample.fixed_issue
                Sample.quiet_process) as (_ & _ & _ & Hrelease).
    exact (Hrelease "1.0" eq_refl eq_refl eq_refl).
Defined.


Lemma settled_cleared_fields i :
  is_muted i = false → settled i → persisted_fields (cleared i) = persisted_fields i.
Proof.
  intros Hm Hs. destruct (Hs Hm) as [Hc Ha]. unfold persisted_fields. cbn.
  by rewrite Hm, Hc, Ha.
Qed.

(** On one settled issue the queryset's [unmute] stores the fields that the
    single-object [unmute] produces. *)
Lemma queryset_unmute_refines t issue p :
  settled issue →
  persisted_fields <$>
    row (id issue) (IssueQuerysetStateManager.unmute (pk_in [id issue]) t ([issue], p)).2.1
  = Some (persisted_fields (IssueStateManager.unmute t (issue, p)).2.1).
Proof.
  intros Hs. rewrite queryset_unmute_run. cbn [map fst snd].
  rewrite (pk_in_self issue issue eq_refl).
  change (id issue) with (id (cleared issue)). rewrite (row_singleton (cleared issue)).
  cbn [fmap option_fmap option_map].
  f_equal. destruct (is_muted issue) eqn:Hm.
  - rewrite (unmute_muted t issue p Hm).
    destruct (by_issue p !! id issue) as [pc|]; [|done].
    destruct t; [|done]. destruct (project issue) as [prj|]; [|done].
    by destruct (alert_on_unmute prj).
  - rewrite (unmute_not_muted t issue p Hm). by apply settled_cleared_fields.
Qed.

(** The same for [resolve_by_next]. *)
Lemma queryset_resolve_by_next_refines issue p :
  settled issue →
  persisted_fields <$>
    row (id issue) (IssueQuerysetStateManager.resolve_by_next (pk_in [id issue]) ([issue], p)).2.1
  = Some (persisted_fields (IssueStateManager.resolve_by_next (issue, p)).2.1).
Proof.
  intros Hs. unfold IssueQuerysetStateManager.resolve_by_next. monad.
  rewrite update_run. cbv beta iota zeta. cbn [map fst snd].
  rewrite (pk_in_self issue issue eq_refl).
  set (x := set_is_resolved_by_next_release true (set_is_resolved true issue)).
  change (IssueStateManager.resolve_by_next (issue, p))
    with (IssueStateManager.unmute false (x, p)).
  apply (queryset_unmute_refines false x p).
  intros Hm. apply (Hs Hm).
Qed.

Section MuteRefines.
Context `{Libraries}.

(** On one issue the queryset's [mute] has the outcome of the single-object
    [mute], stores the object that one leaves, and leaves the same process. *)
Lemma queryset_mute_singleton conds tup now issue p :
  IssueQuerysetStateManager.mute (pk_in [id issue]) conds tup now ([issue], p) =
  let '(o, (issue', p')) := IssueStateManager.mute conds tup now (issue, p) in
  (o, ([issue'], p')).
Proof.
  rewrite mute_unfold.
  unfold IssueQuerysetStateManager.mute, IssueQuerysetStateManager.set_unmute_handlers,
    exists_, fetch, add_periods_to_datetime.
  monad. cbv beta iota zeta delta [fst snd]. cbn [existsb].
  unfold qs_filter at 1. rewrite (pk_in_self issue issue eq_refl). cbn [andb orb].
  rewrite orb_false_r.
  destruct (is_resolved issue); [reflexivity|].
  rewrite update_run. cbv beta iota zeta. cbn [map].
  rewrite (pk_in_self issue issue eq_refl).
  fold (muted_with conds issue). cbn [List.filter].
  rewrite (pk_in_self (muted_with conds issue) issue eq_refl).
  cbn [for_each]. monad. rewrite call_on_run.
  destruct (set_unmute_handlers_issue now (muted_with conds issue) p) as (o & p' & Heq & _).
  monad. rewrite Heq.
  destruct o as [[]|e]; [|reflexivity].
  destruct tup as [[n|] [pn|]]; try reflexivity.
  destruct (dateutil_kwargs_map !! pn) as [kw|]; [|reflexivity].
  destruct (relativedelta_add now kw n) as [e|dt]; [reflexivity|].
  rewrite update_run. cbv beta iota zeta. cbn [map].
  by rewrite (pk_in_self (muted_with conds issue) issue eq_refl).
Qed.

End MuteRefines.

(** ** Resolved and muted exclude each other *)



Lemma local_to_id pks : local_to pks (λ r, r).
Proof. by intros r. Qed.

Lemma local_to_update pks (cond : Issue → bool) f (g : Issue → Issue) :
  (∀ r, id (f r) = id r) → local_to pks g →
  local_to pks (λ r, if qs_filter (pk_in pks) cond (g r) then f (g r) else g r).
Proof.
  intros Hf Hg r. destruct (Hg r) as [Hid Hout]. cbn beta. split.
  - destruct (qs_filter _ _ _); cbv iota; [by rewrite Hf|done].
  - intros Hr. rewrite (Hout Hr). unfold qs_filter. by rewrite Hr.
Qed.

Lemma local_to_update_all pks f (g : Issue → Issue) :
  (∀ r, id (f r) = id r) → local_to pks g →
  local_to pks (λ r, if pk_in pks (g r) then f (g r) else g r).
Proof.
  intros Hf Hg r. destruct (Hg r) as [Hid Hout]. cbn beta. split.
  - destruct (pk_in pks (g r)); cbv iota; [by rewrite Hf|done].
  - intros Hr. rewrite (Hout Hr). by rewrite Hr.
Qed.



Section Congruence.
Context `{Libraries}.

Lemma resolve_at_run pks release_version db p :
  ∃ g, local_to pks g ∧
    IssueQuerysetStateManager._resolve_at (pk_in pks) release_version (db, p)
      = (Return tt, (map g db, p)).
Proof.
  pose (g1 := λ r : Issue,
          if filter_qs_for_fixed_at (pk_in pks) release_version r
          then set_is_resolved true r else r).
  pose (f2 := λ r : Issue,
          set_fixed_at (F_plus_Value (fixed_at r) (release_version +:+ LF))
            (set_is_resolved true r)).
  pose (g2 := λ r : Issue,
          if exclude_qs_for_fixed_at (pk_in pks) "" (g1 r) then f2 (g1 r) else g1 r).
  pose (f3 := λ r : Issue,
          set_fixed_at (F_plus_Value (fixed_at r) (release_version +:+ LF)) r).
  exists (λ r, if pk_in pks (g2 r) then f3 (g2 r) else g2 r). split.
  - apply (local_to_update_all pks f3 g2); [done|].
    apply (local_to_update pks (λ r, negb (holds_release "" (fixed_at r))) f2 g1); [done|].
    apply (local_to_update pks (λ r, holds_release release_version (fixed_at r))
             (set_is_resolved true) (λ r, r)); [done|].
    apply local_to_id.
  - unfold IssueQuerysetStateManager._resolve_at. monad. rewrite !update_run.
    cbv beta iota zeta. rewrite !map_map. reflexivity.
Qed.









End Congruence.



(** ** The timed SQLite cursor *)

Section TimedCursor.
Import timed_sqlite_backend.
Context {Query Params ParamList Result : Type}.
Variable super_execute : Query → Params → M Env Result.
Variable super_executemany : Query → ParamList → M Env Result.

Lemma with_limit_run {A} (body : M Env A) e :
  with_ (limit_runtime 5%float) body e =
  match body (limited e) with
  | (Return a, e') => (Return a, released e')
  | (Raise x, e') => (Raise x, e')
  end.
Proof.
  unfold with_, limit_runtime, set_progress_handler. monad. cbn.
  fold (limited e). destruct (body (limited e)) as [[a|x] e']; reflexivity.
Qed.

(** When the underlying call returns, the handler is cleared. *)
Lemma execute_returns_cleared query params e a e' :
  super_execute query params (limited e) = (Return a, e') →
  execute super_execute query params e = (Return a, released e').
Proof. intros Hrun. unfold execute. by rewrite with_limit_run, Hrun. Qed.

(** When the underlying call raises, the connection stays as that call left
    it: the code after the [yield] is not run. *)
Lemma execute_raises_not_cleared query params e x e' :
  super_execute query params (limited e) = (Raise x, e') →
  execute super_execute query params e = (Raise x, e').
Proof. intros Hrun. unfold execute. by rewrite with_limit_run, Hrun. Qed.

(** C7. [execute] and [executemany] run the underlying call on a connection
    whose progress handler, invoked every 10000 instructions, is [check_time]
    with [start] the clock reading on entry and [seconds] 5.0; that handler
    requests the abort exactly when the clock reads more than [start + 5.0]. *)
Theorem C7_queries_run_under_limit e :
  progress_handler (limited e)
    = Some ({| start := time_time e; seconds := 5%float |}, 10000)
  ∧ (∀ query params,
       execute super_execute query params e =
       match super_execute query params (limited e) with
       | (Return a, e') => (Return a, released e')
       | (Raise x, e') => (Raise x, e')
       end)
  ∧ (∀ query param_list,
       executemany super_executemany query param_list e =
       match super_executemany query param_list (limited e) with
       | (Return a, e') => (Return a, released e')
       | (Raise x, e') => (Raise x, e')
       end)
  ∧ (∀ now,
       requests_abort (check_time {| start := time_time e; seconds := 5%float |} now)
         = PrimFloat.ltb (PrimFloat.add (time_time e) 5%float) now).
Proof.
  split; [reflexivity|].
  split; [intros; apply with_limit_run|].
  split; [intros; apply with_limit_run|].
  intros now. unfold check_time. cbn [start seconds].
  by destruct (PrimFloat.ltb _ _).
Qed.

End TimedCursor.

(** C8. The progress handler after a call that raises: the sample statement
    is interrupted after six seconds; [execute] raises and the connection
    still carries the handler of that call, which requests the abort of
    whatever runs next on the connection. A call that returns clears it. *)
Theorem C8_handler_survives_exception :
  let failed := timed_sqlite_backend.execute Sample.interrupted_execute "SELECT 1" []
                  Sample.idle_env in
  let passed := timed_sqlite_backend.execute Sample.quick_execute "SELECT 1" []
                  Sample.idle_env in
  failed.1 = Raise (OperationalError "interrupted") ∧
  timed_sqlite_backend.progress_handler failed.2
    = Some ({| timed_sqlite_backend.start := 100%float;
               timed_sqlite_backend.seconds := 5%float |}, 10000) ∧
  timed_sqlite_backend.requests_abort
    (timed_sqlite_backend.check_time
       {| timed_sqlite_backend.start := 100%float; timed_sqlite_backend.seconds := 5%float |}
       (timed_sqlite_backend.time_time failed.2)) = true ∧
  passed.1 = Return tt ∧
  timed_sqlite_backend.progress_handler passed.2 = None.
Proof. vm_compute. repeat split; reflexivity. Qed.

(** ** The project forms *)

Import forms.

Lemma user_exists_iff (users : list User) email :
  existsb (λ u, String.eqb (forms.email u) email) users = true
  ↔ ∃ u, u ∈ users ∧ forms.email u = email.
Proof.
  rewrite existsb_exists. split; intros (u & Hin & He); exists u.
  - split; [by apply list_elem_of_In|by apply String.eqb_eq].
  - split; [by apply list_elem_of_In|by apply String.eqb_eq].
Qed.

(** C9. [clean_email], for a form whose cleaned data holds the submitted
    address: it raises [ValidationError] if and only if [user_must_exist] is
    true and no user has that address, and the user table is not changed; in
    every other case it returns the address as submitted. *)
Theorem C9_clean_email (self : ProjectMemberInviteForm.t) (users : list User) email :
  ProjectMemberInviteForm.cleaned_data self !! "email" = Some email →
  let missing := ProjectMemberInviteForm.user_must_exist self = true
                 ∧ ¬ ∃ u, u ∈ users ∧ forms.email u = email in
  ((∃ msg, (ProjectMemberInviteForm.clean_email self users).1 = Raise (ValidationError msg))
     ↔ missing)
  ∧ (missing →
       ProjectMemberInviteForm.clean_email self users
         = (Raise (ValidationError "No user with this email address in the system."), users))
  ∧ (¬ missing → ProjectMemberInviteForm.clean_email self users = (Return email, users)).
Proof.
  intros Hemail missing. subst missing.
  unfold ProjectMemberInviteForm.clean_email, ProjectMemberInviteForm.user_exists.
  rewrite Hemail. monad.
  destruct (ProjectMemberInviteForm.user_must_exist self) eqn:Hmust.
  - destruct (existsb _ users) eqn:Hex; cbn.
    + apply user_exists_iff in Hex.
      split; [|split].
      * split; [intros [msg Hmsg]; discriminate Hmsg|intros [_ Hno]; contradiction].
      * intros [_ Hno]. contradiction.
      * reflexivity.
    + assert (Hno : ¬ ∃ u, u ∈ users ∧ forms.email u = email).
      { intros Hu. apply user_exists_iff in Hu. congruence. }
      split; [|split].
      * split; [done|by eexists].
      * reflexivity.
      * intros Hn. exfalso. apply Hn. done.
  - split; [|split].
    + split; [intros [msg Hmsg]; discriminate Hmsg|intros [Hf _]; discriminate Hf].
    + intros [Hf _]. discriminate Hf.
    + reflexivity.
Qed.

(** A form that requires an existing user, given an unknown address. *)
Lemma C9_clean_email_witness :
  ProjectMemberInviteForm.clean_email
    (ProjectMemberInviteForm.__init__ true {[ "email" := "eve@example.org" ]}) Sample.users
  = (Raise (ValidationError "No user with this email address in the system."), Sample.users).
Proof.
  apply (C9_clean_email
           (ProjectMemberInviteForm.__init__ true {[ "email" := "eve@example.org" ]})
           Sample.users "eve@example.org"); [reflexivity|].
  split; [reflexivity|].
  intros (u & Hin & He). vm_compute in Hin.
  repeat (apply elem_of_cons in Hin as [->|Hin]; [discriminate He|]).
  by apply elem_of_nil in Hin.
Defined.

Section ProjectFormFields.
Import ProjectForm.
Context {TeamQuerySet : Type}.
Variable all_teams : TeamQuerySet.
Variable reverse : string → Z → string.

(** C10. [ProjectForm] by mode. Bound to an instance with a primary key, the
    form has no [team] field and keeps the [dsn] field, disabled, with the
    instance's DSN as initial value; otherwise it has no [dsn] field and the
    queryset of its [team] field is the given [team_qs]. *)
Theorem C10_project_form_fields (inst : option Project) (team_qs : option TeamQuerySet) :
  (∀ i k, inst = Some i → pk i = Some k →
     ∃ form, __init__ all_teams reverse inst team_qs = (Return tt, form) ∧
       fields form !! "team" = None ∧
       ∃ f, fields form !! "dsn" = Some f ∧ disabled f = true ∧ initial f = Some (dsn i))
  ∧ (inst = None ∨ (∃ i, inst = Some i ∧ pk i = None) →
     ∃ form, __init__ all_teams reverse inst team_qs = (Return tt, form) ∧
       fields form !! "dsn" = None ∧
       ∃ f, fields form !! "team" = Some f ∧ queryset f = team_qs).
Proof.
  split.
  - intros i k -> Hk. unfold __init__, configure, super_init. monad.
    cbv beta iota zeta delta [instance]. rewrite Hk.
    eexists. split; [vm_compute; reflexivity|]. split; [reflexivity|].
    eexists. split; [vm_compute; reflexivity|]. split; reflexivity.
  - intros [->|(i & -> & Hk)]; unfold __init__, configure, super_init; monad;
      cbv beta iota zeta delta [instance]; rewrite ?Hk.
    all: eexists; split; [vm_compute; reflexivity|]; split; [reflexivity|].
    all: eexists; split; [vm_compute; reflexivity|]; reflexivity.
Qed.

End ProjectFormFields.

(** The form of a saved project, and the form that creates one. *)
Lemma C10_project_form_fields_witness :
  (∃ form,
     ProjectForm.__init__ tt (λ name pk, name)
       (Some {| ProjectForm.pk := Some 7; ProjectForm.dsn := "https://key@host/7" |}) (Some tt)
       = (Return tt, form) ∧
     ProjectForm.fields form !! "team" = None ∧
     ∃ f, ProjectForm.fields form !! "dsn" = Some f ∧ ProjectForm.disabled f = true ∧
          ProjectForm.initial f = Some "https://key@host/7")
  ∧ (∃ form,
       ProjectForm.__init__ tt (λ name pk, name) None (Some tt) = (Return tt, form) ∧
       ProjectForm.fields form !! "dsn" = None ∧
       ∃ f, ProjectForm.fields form !! "team" = Some f ∧ ProjectForm.queryset f = Some tt).
Proof.
  split.
  - exact (proj1 (C10_project_form_fields tt (λ name pk, name)
                    (Some {| ProjectForm.pk := Some 7; ProjectForm.dsn := "https://key@host/7" |})
                    (Some tt))
             {| ProjectForm.pk := Some 7; ProjectForm.dsn := "https://key@host/7" |} 7
             eq_refl eq_refl).
  - apply (proj2 (C10_project_form_fields tt (λ name pk, name) None (Some tt))).
    left. reflexivity.
Defined.


(** * Further properties *)

(** ** [add_periods_to_datetime] *)

(** X1. [add_periods_to_datetime]: for the six period names year, month,
    week, day, hour and minute it hands the date, the name in the plural and
    the number to [relativedelta] and returns the date that gives, or raises
    the exception that raises, as for a date out of the range of
    [datetime]; for every other name it raises [KeyError] before any date is
    computed; in each case it changes nothing else. *)
Theorem X1_add_periods_to_datetime `{Libraries} {S : Type} dt n pn (s : S) :
  (pn ∈ ["year"; "month"; "week"; "day"; "hour"; "minute"] →
     add_periods_to_datetime dt n pn s =
       (match relativedelta_add dt (pn +:+ "s") n with
        | inr dt' => Return dt'
        | inl e => Raise e
        end, s))
  ∧ (pn ∉ ["year"; "month"; "week"; "day"; "hour"; "minute"] →
     add_periods_to_datetime dt n pn s = (Raise KeyError, s)).
Proof.
  unfold add_periods_to_datetime. split; intros Hpn.
  - rewrite (period_keyword pn Hpn). by destruct (relativedelta_add dt (pn +:+ "s") n).
  - by rewrite (period_unknown pn Hpn).
Qed.

(** Two weeks and eight thousand years from the sample time, and the unknown
    period "fortnight". *)
Lemma X1_add_periods_to_datetime_witness :
  @add_periods_to_datetime Sample.libraries unit Sample.noon 2 "week" tt
    = (Return {| year := 2024; month := 5; day := 31; hour := 12; minute := 0; second := 0;
                 microsecond := 0 |}, tt)
  ∧ @add_periods_to_datetime Sample.libraries unit Sample.noon 8000 "year" tt
    = (Raise ValueError, tt)
  ∧ @add_periods_to_datetime Sample.libraries unit Sample.noon 1 "fortnight" tt
    = (Raise KeyError, tt).
Proof.
  split; [|split].
  - apply (proj1 (@X1_add_periods_to_datetime Sample.libraries unit Sample.noon 2 "week" tt)).
    set_solver.
  - apply (proj1 (@X1_add_periods_to_datetime Sample.libraries unit Sample.noon 8000 "year" tt)).
    set_solver.
  - apply (proj2 (@X1_add_periods_to_datetime Sample.libraries unit Sample.noon 1 "fortnight" tt)).
    intros Hin. repeat (apply elem_of_cons in Hin as [Heq|Hin]; [discriminate Heq|]).
    by apply elem_of_nil in Hin.
Defined.


(** ** [add_fixed_at] and the list behind [fixed_at] *)

(** X2. [add_fixed_at] with a release that holds no newline: the list read
    back by [get_fixed_at] is the old list when the release is already in it
    and the old list with the release appended otherwise; the release is in
    the list afterwards, adding it a second time changes nothing, and no
    field other than [fixed_at] is assigned. *)
Theorem X2_add_fixed_at release_version (i : Issue) :
  has_newline release_version = false →
  get_fixed_at (add_fixed_at release_version i)
    = (if bool_decide (release_version ∈ get_fixed_at i)
       then get_fixed_at i else get_fixed_at i ++ [release_version])
  ∧ release_version ∈ get_fixed_at (add_fixed_at release_version i)
  ∧ add_fixed_at release_version (add_fixed_at release_version i)
      = add_fixed_at release_version i
  ∧ add_fixed_at release_version i
      = set_fixed_at (fixed_at (add_fixed_at release_version i)) i.
Proof.
  intros Hv.
  split; [by apply add_fixed_at_get|]. split; [by apply add_fixed_at_in|]. split.
  - by apply add_fixed_at_listed, add_fixed_at_in.
  - unfold add_fixed_at. case_bool_decide; [by destruct i|reflexivity].
Qed.

(** Release 1.0 added to the sample issue. *)
Lemma X2_add_fixed_at_witness :
  get_fixed_at (add_fixed_at "1.0" Sample.reopened_issue) = [""; "1.0"]
  ∧ add_fixed_at "1.0" (add_fixed_at "1.0" Sample.reopened_issue)
      = add_fixed_at "1.0" Sample.reopened_issue.
Proof.
  destruct (X2_add_fixed_at "1.0" Sample.reopened_issue eq_refl) as (Hget & _ & Hidem & _).
  split; [|exact Hidem]. rewrite Hget. reflexivity.
Defined.


(** ** What [IssueStateManager.unmute] leaves alone, and when it alerts *)

(** X3. The frame of [IssueStateManager.unmute], whatever its arguments and
    its outcome: the counters that the registry holds for the other issues
    are untouched, the registry has a counter for the issue exactly when it
    had one, and of the issue's fields only [is_muted],
    [unmute_on_volume_based_conditions] and [unmute_after] are assigned. *)
Theorem X3_unmute_frame triggered_by_event issue p :
  let s' := (IssueStateManager.unmute triggered_by_event (issue, p)).2 in
  (∀ j, j ≠ id issue → by_issue s'.2 !! j = by_issue p !! j)
  ∧ (is_Some (by_issue s'.2 !! id issue) ↔ is_Some (by_issue p !! id issue))
  ∧ (id s'.1, project s'.1, is_resolved s'.1, is_resolved_by_next_release s'.1, fixed_at s'.1)
      = (id issue, project issue, is_resolved issue, is_resolved_by_next_release issue,
         fixed_at issue).
Proof.
  cbv zeta. destruct (is_muted issue) eqn:Hm.
  2: { by rewrite (unmute_not_muted _ _ _ Hm). }
  rewrite (unmute_muted _ _ _ Hm).
  destruct (by_issue p !! id issue) as [pc|] eqn:Hpc.
  2: { cbn [fst snd]. by rewrite Hpc. }
  assert (Hsome : is_Some (Some (without_unmute_listeners pc)) ↔ is_Some (Some pc))
    by (by split).
  destruct triggered_by_event; [destruct (project issue) as [prj|] eqn:Hprj;
                                  [destruct (alert_on_unmute prj)|]|].
  all: cbn [fst snd]; split;
    [intros j Hj; cbn [by_issue set_by_issue]; by rewrite lookup_insert_ne|].
  all: split; [cbn [by_issue set_by_issue]; by rewrite lookup_insert_eq|cbn; congruence].
Qed.

(** The muted sample issue unmuted next to the counter of issue 2. *)
Lemma X3_unmute_frame_witness :
  by_issue (IssueStateManager.unmute true (Sample.muted_issue, Sample.crowded_process)).2.2
    !! 2%N = Some Sample.busy_counter.
Proof.
  destruct (X3_unmute_frame true Sample.muted_issue Sample.crowded_process) as (Hother & _).
  by rewrite Hother.
Defined.

(** X4. [IssueStateManager.unmute] queues exactly one alert, for its own
    issue, when the issue is muted, the call is triggered by an event, the
    registry has a counter for the issue and the issue's project has
    [alert_on_unmute] set; in every other case the alert queue stays as it
    was. *)
Theorem X4_unmute_alerts triggered_by_event issue p :
  let p' := (IssueStateManager.unmute triggered_by_event (issue, p)).2.2 in
  let alerts := is_muted issue = true ∧ triggered_by_event = true
                ∧ is_Some (by_issue p !! id issue)
                ∧ ∃ prj, project issue = Some prj ∧ alert_on_unmute prj = true in
  (alerts → alert_queue p' = alert_queue p ++ [id issue])
  ∧ (¬ alerts → alert_queue p' = alert_queue p).
Proof.
  cbv zeta. destruct (is_muted issue) eqn:Hm.
  2: { rewrite (unmute_not_muted _ _ _ Hm). split; [by intros [? _]|done]. }
  rewrite (unmute_muted _ _ _ Hm).
  destruct (by_issue p !! id issue) as [pc|].
  2: { split; [|done]. intros (_ & _ & [? Hsome] & _). discriminate Hsome. }
  destruct triggered_by_event.
  2: { split; [|done]. intros (_ & Ht & _). discriminate Ht. }
  destruct (project issue) as [prj|].
  2: { split; [|done]. intros (_ & _ & _ & prj & Hprj & _). discriminate Hprj. }
  destruct (alert_on_unmute prj) eqn:Halert.
  - split; [done|]. intros Hn. exfalso. apply Hn. repeat split; eauto.
  - split; [|done]. intros (_ & _ & _ & prj' & [= <-] & Hp). congruence.
Qed.

(** The muted sample issue, unmuted by an event. *)
Lemma X4_unmute_alerts_witness :
  alert_queue (IssueStateManager.unmute true (Sample.muted_issue, Sample.muted_process)).2.2
    = [1%N]
  ∧ alert_queue (IssueStateManager.unmute false (Sample.muted_issue, Sample.muted_process)).2.2
    = [].
Proof.
  split.
  - apply (proj1 (X4_unmute_alerts true Sample.muted_issue Sample.muted_process)).
    split; [reflexivity|]. split; [reflexivity|]. split; [by eexists|].
    exists Sample.alerting_project. split; reflexivity.
  - apply (proj2 (X4_unmute_alerts false Sample.muted_issue Sample.muted_process)).
    intros (_ & Ht & _). discriminate Ht.
Defined.


(** ** Round trips and repeated calls of [IssueStateManager] *)

Lemma set_is_resolved_same b i : is_resolved i = b → set_is_resolved b i = i.
Proof. intros <-. by destruct i. Qed.

Section RoundTrips.
Context `{Libraries}.

(** X5. Muting and unmuting again gives the issue back: for an unmuted
    issue without conditions and without [unmute_after], when [mute] has
    returned, the issue is muted, and [unmute] on the state it left returns
    with the issue exactly as it was before the two calls, no alert queued
    and the counters of the other issues untouched. *)
Theorem X5_mute_unmute_round_trip issue p conds tup now s :
  is_muted issue = false →
  unmute_on_volume_based_conditions issue = "[]" →
  unmute_after issue = None →
  IssueStateManager.mute conds tup now (issue, p) = (Return tt, s) →
  is_muted s.1 = true
  ∧ ∃ p', IssueStateManager.unmute false s = (Return tt, (issue, p'))
          ∧ alert_queue p' = alert_queue p
          ∧ ∀ j, j ≠ id issue → by_issue p' !! j = by_issue p !! j.
Proof.
  intros Hmuted Hconds Hafter.
  rewrite mute_unfold, set_unmute_handlers_unfold.
  change (id (muted_with conds issue)) with (id issue).
  change (unmute_on_volume_based_conditions (muted_with conds issue)) with conds.
  destruct (is_resolved issue) eqn:Hres; [discriminate|].
  destruct (by_issue p !! id issue) as [pc|] eqn:Hpc; [|discriminate].
  destruct (conditions_from_json conds) as [e|vbcs]; [discriminate|].
  destruct (register_loop (id issue) now vbcs pc) as [[[]|e] pc']; [|discriminate].
  set (p2 := set_by_issue _ p).
  assert (Hback : ∀ i1, is_muted i1 = true → id i1 = id issue → cleared i1 = issue →
            ∃ p', IssueStateManager.unmute false (i1, p2) = (Return tt, (issue, p'))
                  ∧ alert_queue p' = alert_queue p
                  ∧ ∀ j, j ≠ id issue → by_issue p' !! j = by_issue p !! j).
  { intros i1 Hm Hid Hcl. rewrite (unmute_muted false i1 p2 Hm), Hid.
    subst p2. cbn [by_issue set_by_issue]. rewrite lookup_insert_eq. cbv zeta.
    rewrite Hcl. eexists. split; [reflexivity|]. split; [reflexivity|].
    intros j Hj. cbn [by_issue set_by_issue]. by rewrite !lookup_insert_ne. }
  assert (Hcleared : ∀ d, cleared (set_unmute_after d (muted_with conds issue)) = issue).
  { intros d. destruct issue. cbn in *. by subst. }
  assert (Hcleared' : cleared (muted_with conds issue) = issue).
  { destruct issue. cbn in *. by subst. }
  destruct tup as [[n|] [pn|]].
  1: destruct (dateutil_kwargs_map !! pn) as [kw|]; [|discriminate].
  1: destruct (relativedelta_add now kw n) as [e|dt]; [discriminate|].
  all: intros [= <-]; split; [reflexivity|].
  all: apply Hback; [reflexivity|reflexivity|].
  1: apply Hcleared.
  all: apply Hcleared'.
Qed.

End RoundTrips.

(** The sample issue, muted for two days and unmuted again. *)
Lemma X5_mute_unmute_round_trip_witness :
  ∃ p', IssueStateManager.unmute false
          (@IssueStateManager.mute Sample.libraries Sample.three_per_day_json
             (Some 2, Some "day") Sample.noon (Sample.open_issue, Sample.quiet_process)).2
        = (Return tt, (Sample.open_issue, p'))
      ∧ alert_queue p' = [].
Proof.
  destruct (@X5_mute_unmute_round_trip Sample.libraries Sample.open_issue Sample.quiet_process
              Sample.three_per_day_json (Some 2, Some "day") Sample.noon
              (@IssueStateManager.mute Sample.libraries Sample.three_per_day_json
                 (Some 2, Some "day") Sample.noon (Sample.open_issue, Sample.quiet_process)).2
              eq_refl eq_refl eq_refl eq_refl) as (_ & p' & Hrun & Hq & _).
  by exists p'.
Defined.

Lemma resolve_by_release_run v i p :
  IssueStateManager.resolve_by_release v (i, p)
    = IssueStateManager.unmute false (add_fixed_at v (set_is_resolved true i), p).
Proof. reflexivity. Qed.

Lemma resolve_by_next_run i p :
  IssueStateManager.resolve_by_next (i, p)
    = IssueStateManager.unmute false
        (set_is_resolved_by_next_release true (set_is_resolved true i), p).
Proof. reflexivity. Qed.


(** When [unmute] returns, the object is unmuted and is the given one or the
    given one cleared. *)
Lemma unmute_returned t i p s :
  IssueStateManager.unmute t (i, p) = (Return tt, s) →
  is_muted s.1 = false ∧ (s.1 = i ∨ s.1 = cleared i).
Proof.
  intros Hrun. pose proof (unmute_issue_cases t i p) as Hcases.
  destruct (unmute_effect t i p) as (o & i' & p' & Heq & _ & Hm & _).
  rewrite Heq in Hrun, Hcases. injection Hrun as _ <-. cbn [fst snd] in *. done.
Qed.

Lemma resolve_by_release_again v i p :
  is_resolved i = true → is_muted i = false → v ∈ get_fixed_at i →
  IssueStateManager.resolve_by_release v (i, p) = (Return tt, (i, p)).
Proof.
  intros Hr Hm Hv.
  rewrite resolve_by_release_run, (set_is_resolved_same true i Hr), (add_fixed_at_listed v i Hv).
  by apply unmute_not_muted.
Qed.

(** X6. Resolving twice is resolving once: when [resolve_by_release] of a
    release without newline, [resolve], or [resolve_by_next] has returned,
    the same call on the state it left returns and changes neither the issue
    nor the process. *)
Theorem X6_resolve_idempotent :
  (∀ v i p s, has_newline v = false →
     IssueStateManager.resolve_by_release v (i, p) = (Return tt, s) →
     IssueStateManager.resolve_by_release v s = (Return tt, s))
  ∧ (∀ i p s,
       IssueStateManager.resolve (i, p) = (Return tt, s) →
       IssueStateManager.resolve s = (Return tt, s))
  ∧ (∀ i p s,
       IssueStateManager.resolve_by_next (i, p) = (Return tt, s) →
       IssueStateManager.resolve_by_next s = (Return tt, s)).
Proof.
  assert (Hrel : ∀ v i p s, has_newline v = false →
     IssueStateManager.resolve_by_release v (i, p) = (Return tt, s) →
     IssueStateManager.resolve_by_release v s = (Return tt, s)).
  { intros v i p [i1 p1] Hv Hrun. rewrite resolve_by_release_run in Hrun.
    apply unmute_returned in Hrun as [Hm Hcase]. cbn [fst] in *.
    pose proof (add_fixed_at_in v (set_is_resolved true i) Hv) as Hin.
    assert (is_resolved (add_fixed_at v (set_is_resolved true i)) = true) as Hres.
    { unfold add_fixed_at. by case_bool_decide. }
    apply resolve_by_release_again; [|exact Hm|]; by destruct Hcase as [-> | ->]. }
  split; [exact Hrel|]. split.
  - intros i p s. apply (Hrel "" i p s eq_refl).
  - intros i p [i1 p1] Hrun. rewrite resolve_by_next_run in Hrun.
    apply unmute_returned in Hrun as [Hm Hcase]. cbn [fst] in *.
    rewrite resolve_by_next_run.
    assert (set_is_resolved_by_next_release true (set_is_resolved true i1) = i1) as ->.
    { destruct Hcase as [-> | ->]; reflexivity. }
    by apply unmute_not_muted.
Qed.

(** The sample issue resolved at release 1.0, twice. *)
Lemma X6_resolve_idempotent_witness :
  IssueStateManager.resolve_by_release "1.0"
    (IssueStateManager.resolve_by_release "1.0" (Sample.open_issue, Sample.quiet_process)).2
  = IssueStateManager.resolve_by_release "1.0" (Sample.open_issue, Sample.quiet_process).
Proof.
  pose proof (proj1 X6_resolve_idempotent "1.0" Sample.open_issue Sample.quiet_process
                (IssueStateManager.resolve_by_release "1.0"
                   (Sample.open_issue, Sample.quiet_process)).2 eq_refl eq_refl) as Hagain.
  exact Hagain.
Defined.




(** ** The table under the handler and under the queryset manager *)

Lemma map_lookup {A B} (f : A → B) (l : list A) (n : nat) :
  map f l !! n = f <$> l !! n.
Proof. revert n. induction l as [|a l IH]; intros [|n]; cbn; auto. Qed.

Lemma save_existing r' (db : Table) p r :
  row (id r') db = Some r →
  save r' (db, p) = (Return tt, (map (λ x, if N.eqb (id x) (id r') then r' else x) db, p)).
Proof.
  intros Hrow. unfold save. monad. cbv beta iota zeta delta [fst snd].
  by rewrite (row_exists _ _ _ Hrow).
Qed.

(** X8. The closure of [create_unmute_issue_handler] and the table: without
    a row of the given id it raises [DoesNotExist] and changes nothing;
    whenever it raises, the table is as before (the changes were made on the
    object in memory and never saved); in every case the table keeps its
    length and every row of another id; and for a muted row whose issue has
    no counter in the registry it raises [KeyError], the row staying muted. *)
Theorem X8_unmute_handler_table k (db : Table) p :
  ∃ o db' p',
    call_handler (create_unmute_issue_handler k) (db, p) = (o, (db', p'))
    ∧ (row k db = None → o = Raise DoesNotExist ∧ db' = db ∧ p' = p)
    ∧ (∀ e, o = Raise e → db' = db)
    ∧ length db' = length db
    ∧ (∀ n x, db !! n = Some x → id x ≠ k → db' !! n = Some x)
    ∧ (∀ r, row k db = Some r → is_muted r = true → by_issue p !! k = None →
         o = Raise KeyError ∧ row k db' = Some r ∧ p' = p).
Proof.
  unfold call_handler, create_unmute_issue_handler, unmute_issue_handler_body, objects_get.
  monad. cbv beta iota zeta delta [fst snd].
  destruct (row k db) as [r|] eqn:Hrow.
  2: { eexists _, _, _. split; [reflexivity|]. repeat split; try done. }
  pose proof (row_id _ _ _ Hrow) as Hk.
  rewrite call_on_run.
  destruct (unmute_effect true r p) as (o & r' & p' & Heq & Hid & _).
  pose proof (unmute_muted true r p) as Hmuted.
  rewrite Heq in Hmuted |- *.
  assert (Hkey : ∀ r0, Some r = Some r0 → is_muted r0 = true → by_issue p !! k = None →
            (o, (r', p')) = (Raise KeyError, (cleared r0, p))).
  { intros r0 [= <-] Hm Hnone. specialize (Hmuted Hm). by rewrite Hk, Hnone in Hmuted. }
  destruct o as [[]|e].
  - assert (Hrow' : row (id r') db = Some r) by (by rewrite Hid, Hk).
    rewrite (save_existing r' db p' r Hrow'), Hid, Hk.
    eexists _, _, _. split; [reflexivity|].
    split; [done|]. split; [done|]. split; [by rewrite length_map|]. split.
    + intros n x Hn Hx. rewrite map_lookup, Hn. cbn.
      by destruct (N.eqb_spec (id x) k).
    + intros r0 Hr0 Hm Hnone. by specialize (Hkey r0 Hr0 Hm Hnone).
  - eexists _, _, _. split; [reflexivity|].
    split; [done|]. split; [done|]. split; [done|]. split; [done|].
    intros r0 Hr0 Hm Hnone. specialize (Hkey r0 Hr0 Hm Hnone).
    injection Hkey as -> _ ->. by injection Hr0 as <-.
Qed.

(** The handler of issue 2 on a table that holds issue 1 only. *)
Lemma X8_unmute_handler_table_witness :
  ∃ o db' p',
    call_handler (create_unmute_issue_handler 2%N)
      ([Sample.muted_issue], Sample.muted_process) = (o, (db', p'))
    ∧ o = Raise DoesNotExist ∧ db' = [Sample.muted_issue] ∧ p' = Sample.muted_process.
Proof.
  destruct (X8_unmute_handler_table 2%N [Sample.muted_issue] Sample.muted_process)
    as (o & db' & p' & Hrun & Hnone & _).
  exists o, db', p'. split; [exact Hrun|]. by apply Hnone.
Defined.

Lemma local_to_frame pks g (db : Table) :
  local_to pks g →
  map id (map g db) = map id db
  ∧ ∀ n x, db !! n = Some x → id x ∉ pks → map g db !! n = Some x.
Proof.
  intros Hg. split.
  - rewrite map_map. apply map_ext. intros r. apply Hg.
  - intros n x Hn Hx. rewrite map_lookup, Hn. cbn. f_equal. apply Hg.
    unfold pk_in. by apply bool_decide_eq_false_2.
Qed.

Section Queryset.
Context `{Libraries}.

(** Every method of the queryset manager over primary keys maps a function
    over the table that is local to these keys. *)
Lemma queryset_local op pks (db : Table) p :
  ∃ g, local_to pks g ∧ (run_queryset op (pk_in pks) (db, p)).2.1 = map g db.
Proof.
  assert (Hid : ∃ g, local_to pks g ∧ db = map g db).
  { exists (λ r, r). split; [apply local_to_id|by rewrite map_id]. }
  assert (Hclear : ∀ g, local_to pks g →
    ∃ g', local_to pks g' ∧
      map (λ r, if pk_in pks r then cleared r else r) (map g db) = map g' db).
  { intros g Hg. eexists. split; [|by rewrite map_map].
    by apply (local_to_update_all pks cleared g). }
  destruct op as [| |v| | |c tup now|t|now]; cbn [run_queryset].
  - unfold IssueQuerysetStateManager.resolve. monad.
    destruct (resolve_at_run pks "" db p) as (g & Hg & ->).
    rewrite queryset_unmute_run. by apply Hclear.
  - exact Hid.
  - unfold IssueQuerysetStateManager.resolve_by_release. monad.
    destruct (resolve_at_run pks v db p) as (g & Hg & ->).
    rewrite queryset_unmute_run. by apply Hclear.
  - unfold IssueQuerysetStateManager.resolve_by_next. monad.
    rewrite update_run, queryset_unmute_run. cbv beta iota zeta delta [fst snd].
    apply Hclear. apply (local_to_update_all pks _ (λ r, r)); [done|apply local_to_id].
  - exact Hid.
  - unfold IssueQuerysetStateManager.mute, IssueQuerysetStateManager.set_unmute_handlers,
      exists_, fetch, add_periods_to_datetime.
    monad. cbv beta iota zeta delta [fst snd].
    destruct (existsb _ db) eqn:Hex; [exact Hid|].
    rewrite update_run.
    set (g1 := λ r : Issue, if pk_in pks r then _ else r).
    assert (Hg1 : local_to pks g1).
    { apply (local_to_update_all pks _ (λ r, r)); [done|apply local_to_id]. }
    destruct (for_each_call_on_table (IssueStateManager.set_unmute_handlers now)
                (List.filter (pk_in pks) (map g1 db)) (map g1 db) p) as (o & p' & Hloop).
    monad. rewrite Hloop.
    destruct o as [[]|e]; [|by exists g1].
    destruct tup as [[n|] [pn|]]; try by exists g1.
    destruct (dateutil_kwargs_map !! pn) as [kw|]; [|by exists g1].
    destruct (relativedelta_add now kw n) as [e|dt]; [by exists g1|].
    rewrite update_run. cbv beta iota zeta delta [fst snd].
    eexists. split; [|by rewrite map_map].
    by apply (local_to_update_all pks _ g1).
  - rewrite queryset_unmute_run. cbv beta iota zeta delta [fst snd].
    eexists. split; [|reflexivity].
    apply (local_to_update_all pks cleared (λ r, r)); [done|apply local_to_id].
  - unfold IssueQuerysetStateManager.set_unmute_handlers, fetch. monad.
    cbv beta iota zeta delta [fst snd].
    destruct (for_each_call_on_table (IssueStateManager.set_unmute_handlers now)
                (List.filter (pk_in pks) db) db p) as (o & p' & Hloop).
    monad. rewrite Hloop. exact Hid.
Qed.

(** X9. The frame of [IssueQuerysetStateManager] over a queryset of primary
    keys: whatever the method and its outcome, the table has the same
    primary keys in the same order afterwards, and every row whose key is
    not among the given ones is unchanged. *)
Theorem X9_queryset_frame op pks (db : Table) p :
  let db' := (run_queryset op (pk_in pks) (db, p)).2.1 in
  map id db' = map id db
  ∧ ∀ n x, db !! n = Some x → id x ∉ pks → db' !! n = Some x.
Proof.
  cbv zeta. destruct (queryset_local op pks db p) as (g & Hg & ->).
  by apply local_to_frame.
Qed.

(** X10. What [IssueQuerysetStateManager] never does, for every queryset:
    [resolve], [resolve_by_release], [resolve_by_next] and [unmute] always
    return, and leave the registry of counters and the queue of alerts as
    they were; [set_unmute_handlers] leaves the table as it was;
    [resolve_by_latest] and [reopen] raise [NotImplementedError] and change
    nothing. *)
Theorem X10_queryset_untouched (qs : QuerySet) (db : Table) p :
  (∀ op, (op = op_resolve ∨ (∃ v, op = op_resolve_by_release v)
          ∨ op = op_resolve_by_next ∨ ∃ t, op = op_unmute t) →
     ∃ db', run_queryset op qs (db, p) = (Return tt, (db', p)))
  ∧ (∀ now, (run_queryset (op_set_unmute_handlers now) qs (db, p)).2.1 = db)
  ∧ (∀ op, op = op_resolve_by_latest ∨ op = op_reopen →
       ∃ msg, run_queryset op qs (db, p) = (Raise (NotImplementedError msg), (db, p))).
Proof.
  split; [|split].
  - intros op [-> | [[v ->] | [-> | [t ->]]]]; cbn [run_queryset].
    + unfold IssueQuerysetStateManager.resolve, IssueQuerysetStateManager._resolve_at.
      monad. rewrite !update_run. cbv beta iota zeta delta [fst snd].
      rewrite queryset_unmute_run. by eexists.
    + unfold IssueQuerysetStateManager.resolve_by_release, IssueQuerysetStateManager._resolve_at.
      monad. rewrite !update_run. cbv beta iota zeta delta [fst snd].
      rewrite queryset_unmute_run. by eexists.
    + unfold IssueQuerysetStateManager.resolve_by_next.
      monad. rewrite !update_run, queryset_unmute_run. by eexists.
    + rewrite queryset_unmute_run. by eexists.
  - intros now. cbn [run_queryset].
    unfold IssueQuerysetStateManager.set_unmute_handlers, fetch. monad.
    cbv beta iota zeta delta [fst snd].
    destruct (for_each_call_on_table (IssueStateManager.set_unmute_handlers now)
                (List.filter qs db) db p) as (o & p' & Hloop).
    monad. by rewrite Hloop.
  - intros op [-> | ->]; by eexists.
Qed.

End Queryset.

(** Both sample issues resolved in one call: the registry keeps its listener. *)
Lemma X10_queryset_untouched_witness :
  ∃ db', @run_queryset Sample.libraries op_resolve (λ _, true)
           ([Sample.muted_issue; Sample.open_issue], Sample.muted_process)
         = (Return tt, (db', Sample.muted_process)).
Proof.
  apply (proj1 (@X10_queryset_untouched Sample.libraries (λ _, true)
                  [Sample.muted_issue; Sample.open_issue] Sample.muted_process)).
  by left.
Defined.

(** X11. [IssueQuerysetStateManager.resolve_by_next] over primary keys, row
    by row: it returns, leaves the process alone, and every selected row
    that carries no conditions and no [unmute_after] while unmuted ends with
    the persisted fields [IssueStateManager.resolve_by_next] gives the same
    issue, whatever the outcome of the latter; the other rows are
    unchanged. *)
Theorem X11_queryset_resolve_by_next pks (db : Table) p :
  ∃ db',
    IssueQuerysetStateManager.resolve_by_next (pk_in pks) (db, p) = (Return tt, (db', p))
    ∧ length db' = length db
    ∧ ∀ n r, db !! n = Some r →
        if bool_decide (id r ∈ pks) then
          settled r →
          ∀ q, persisted_fields <$> db' !! n
               = Some (persisted_fields (IssueStateManager.resolve_by_next (r, q)).2.1)
        else db' !! n = Some r.
Proof.
  unfold IssueQuerysetStateManager.resolve_by_next. monad.
  rewrite update_run, queryset_unmute_run. cbv beta iota zeta delta [fst snd].
  eexists. split; [reflexivity|]. split; [by rewrite !length_map|].
  intros n r Hn. rewrite !map_lookup, Hn. cbn [fmap option_fmap option_map].
  change (bool_decide (id r ∈ pks)) with (pk_in pks r).
  destruct (pk_in pks r) eqn:Hr; [|by rewrite Hr].
  intros Hsettled q.
  set (r1 := set_is_resolved_by_next_release true (set_is_resolved true r)).
  assert (pk_in pks r1 = true) as -> by exact Hr.
  rewrite resolve_by_next_run. fold r1. cbn [fmap option_fmap option_map]. f_equal.
  change (persisted_fields (cleared r1)
          = persisted_fields (IssueStateManager.unmute false (r1, q)).2.1).
  destruct (is_muted r1) eqn:Hm.
  - destruct (unmute_issue_cases false r1 q) as [Heq | ->]; [|done].
    destruct (unmute_effect false r1 q) as (o & i' & p' & Hrun & _ & Hm' & _).
    rewrite Hrun in Heq. cbn [fst snd] in Heq. subst i'. congruence.
  - rewrite (unmute_not_muted false r1 q Hm). cbn [fst snd].
    apply settled_cleared_fields; [exact Hm|]. exact Hsettled.
Qed.

(** A queryset that selects issue 2 leaves the row of issue 1 alone. *)
Lemma X9_queryset_frame_witness :
  (@run_queryset Sample.libraries op_resolve (pk_in [2%N])
     ([Sample.muted_issue], Sample.muted_process)).2.1 !! 0%nat = Some Sample.muted_issue.
Proof.
  apply (proj2 (@X9_queryset_frame Sample.libraries op_resolve [2%N] [Sample.muted_issue]
                  Sample.muted_process) 0%nat Sample.muted_issue eq_refl).
  intros Hin. by apply list_elem_of_singleton in Hin.
Defined.


(** The muted sample issue, resolved by the next release through a queryset. *)
Lemma X11_queryset_resolve_by_next_witness :
  ∃ db',
    IssueQuerysetStateManager.resolve_by_next (pk_in [1%N])
      ([Sample.muted_issue], Sample.muted_process) = (Return tt, (db', Sample.muted_process))
    ∧ persisted_fields <$> db' !! 0%nat
      = Some (persisted_fields
                (IssueStateManager.resolve_by_next
                   (Sample.muted_issue, Sample.muted_process)).2.1).
Proof.
  destruct (X11_queryset_resolve_by_next [1%N] [Sample.muted_issue] Sample.muted_process)
    as (db' & Hrun & _ & Hrows).
  exists db'. split; [exact Hrun|].
  apply (Hrows 0%nat Sample.muted_issue eq_refl). by intros [=].
Defined.

(** ** [set_unmute_handlers] and the bulk [mute] *)


Section Handlers.
Context `{Libraries}.


(** The loop of the bulk [set_unmute_handlers] leaves the table and the
    alerts alone. *)
Lemma for_each_set_unmute_handlers now issues (db : Table) p :
  ∃ o p',
    for_each issues (λ issue, call_on issue (IssueStateManager.set_unmute_handlers now);; mret tt)
      (db, p) = (o, (db, p'))
    ∧ alert_queue p' = alert_queue p.
Proof.
  revert p. induction issues as [|x issues IH]; intros p; [by eexists _, _|].
  cbn [for_each]. monad. rewrite call_on_run.
  destruct (set_unmute_handlers_issue now x p) as (o & p1 & Hrun & Hq). monad.
  rewrite Hrun. destruct o as [[]|e].
  - destruct (IH p1) as (o' & p' & Hloop & Hq'). monad.
    exists o', p'. split; [exact Hloop|congruence].
  - by exists (Raise e), p1.
Qed.

(** X13. The bulk [mute] over primary keys, row by row. When no selected row
    is resolved, every selected row is left muted, with the given conditions
    stored and its resolution fields as before, whether the call returns or
    raises; [unmute_after] is set, to the given moment advanced by the
    periods, exactly when the call returns and was given both a number and a
    period name, and no alert is queued. *)
Theorem X13_queryset_mute_rows pks conds tup now (db : Table) p o db' p' :
  IssueQuerysetStateManager.mute (pk_in pks) conds tup now (db, p) = (o, (db', p')) →
  existsb (qs_filter (pk_in pks) is_resolved) db = false →
  alert_queue p' = alert_queue p
  ∧ ∀ n r, db !! n = Some r → id r ∈ pks →
      ∃ r', db' !! n = Some r'
        ∧ is_muted r' = true
        ∧ unmute_on_volume_based_conditions r' = conds
        ∧ is_resolved r' = false
        ∧ fixed_at r' = fixed_at r
        ∧ match o, tup with
          | Return _, (Some k, Some pn) =>
              inr <$> unmute_after r' = Some (relativedelta_add now (pn +:+ "s") k)
          | _, _ => unmute_after r' = unmute_after r
          end.
Proof.
  intros Hrun Hex.
  assert (Hres : ∀ n r, db !! n = Some r → id r ∈ pks → is_resolved r = false).
  { intros n r Hn Hr. destruct (is_resolved r) eqn:Hrr; [|done].
    assert (existsb (qs_filter (pk_in pks) is_resolved) db = true) as Hex'; [|congruence].
    apply existsb_exists. exists r. split.
    - apply list_elem_of_In. by eapply list_elem_of_lookup_2.
    - unfold qs_filter, pk_in. by rewrite bool_decide_eq_true_2, Hrr. }
  revert Hrun.
  unfold IssueQuerysetStateManager.mute, IssueQuerysetStateManager.set_unmute_handlers,
    exists_, fetch, add_periods_to_datetime.
  monad. cbv beta iota zeta delta [fst snd]. rewrite Hex, update_run.
  set (g1 := λ r : Issue, if pk_in pks r then _ else r).
  destruct (for_each_set_unmute_handlers now (List.filter (pk_in pks) (map g1 db)) (map g1 db) p)
    as (o1 & p1 & Hloop & Hq).
  monad. rewrite Hloop.
  assert (Hrow1 : ∀ n r, db !! n = Some r → id r ∈ pks →
            map g1 db !! n = Some (muted_with conds r)).
  { intros n r Hn Hr. rewrite map_lookup, Hn. cbn. f_equal. unfold g1, pk_in.
    by rewrite bool_decide_eq_true_2. }
  assert (Hsame : (o, (db', p')) = (o, (map g1 db, p1)) →
            alert_queue p' = alert_queue p
            ∧ ∀ n r, db !! n = Some r → id r ∈ pks →
                ∃ r', db' !! n = Some r' ∧ is_muted r' = true
                  ∧ unmute_on_volume_based_conditions r' = conds
                  ∧ is_resolved r' = false ∧ fixed_at r' = fixed_at r
                  ∧ unmute_after r' = unmute_after r).
  { intros [= -> ->]. split; [exact Hq|]. intros n r Hn Hr.
    exists (muted_with conds r). split; [by apply Hrow1|].
    repeat split. exact (Hres n r Hn Hr). }
  assert (Hstop : ∀ e, (o, (db', p')) = (Raise e, (map g1 db, p1)) →
            alert_queue p' = alert_queue p
            ∧ ∀ n r, db !! n = Some r → id r ∈ pks →
                ∃ r', db' !! n = Some r' ∧ is_muted r' = true
                  ∧ unmute_on_volume_based_conditions r' = conds
                  ∧ is_resolved r' = false ∧ fixed_at r' = fixed_at r
                  ∧ match o, tup with
                    | Return _, (Some k, Some pn) =>
                        inr <$> unmute_after r' = Some (relativedelta_add now (pn +:+ "s") k)
                    | _, _ => unmute_after r' = unmute_after r
                    end).
  { intros e Heq. injection Heq as Ho Hdb Hp. destruct Hsame as [Ha Hrows]; [congruence|].
    split; [exact Ha|]. intros n r Hn Hr.
    destruct (Hrows n r Hn Hr) as (r' & H1 & H2 & H3 & H4 & H5 & H6).
    exists r'. rewrite Ho. by repeat split. }
  destruct o1 as [[]|e].
  2: { intros Heq. symmetry in Heq. by apply (Hstop e). }
  destruct tup as [[k|] [pn|]].
  2-4: intros Heq; symmetry in Heq; injection Heq as Ho Hdb Hp;
    (destruct Hsame as [Ha Hrows]; [congruence|]); split; [exact Ha|]; intros n r Hn Hr;
    destruct (Hrows n r Hn Hr) as (r' & H1 & H2 & H3 & H4 & H5 & H6);
    exists r'; rewrite Ho; by repeat split.
  rewrite period_lookup. case_bool_decide as Hpn.
  2: { intros Heq. symmetry in Heq. by apply (Hstop KeyError). }
  destruct (relativedelta_add now (pn +:+ "s") k) as [e|dt] eqn:Hdt.
  { intros Heq. symmetry in Heq. by apply (Hstop e). }
  rewrite update_run. cbv beta iota zeta delta [fst snd].
  intros [= <- <- <-]. split; [exact Hq|]. intros n r Hn Hr.
  eexists. split.
  - rewrite map_lookup, (Hrow1 n r Hn Hr). cbn [fmap option_fmap option_map].
    assert (pk_in pks (muted_with conds r) = true) as ->; [|reflexivity].
    unfold pk_in. by apply bool_decide_eq_true_2.
  - repeat split. exact (Hres n r Hn Hr).
Qed.

End Handlers.

(** The open sample issue and an unrelated one, muted through a queryset. *)
Lemma X13_queryset_mute_rows_witness :
  ∃ r', (@IssueQuerysetStateManager.mute Sample.libraries (pk_in [1%N])
           Sample.three_per_day_json (Some 2, Some "day") Sample.noon
           ([Sample.open_issue], Sample.quiet_process)).2.1 !! 0%nat = Some r'
    ∧ is_muted r' = true
    ∧ inr <$> unmute_after r'
      = Some (@relativedelta_add Sample.libraries Sample.noon "days" 2).
Proof.
  pose (res := @IssueQuerysetStateManager.mute Sample.libraries (pk_in [1%N])
           Sample.three_per_day_json (Some 2, Some "day") Sample.noon
           ([Sample.open_issue], Sample.quiet_process)).
  destruct (@X13_queryset_mute_rows Sample.libraries [1%N] Sample.three_per_day_json
              (Some 2, Some "day") Sample.noon [Sample.open_issue] Sample.quiet_process
              (Return tt) res.2.1 res.2.2 eq_refl eq_refl) as [_ Hrows].
  destruct (Hrows 0%nat Sample.open_issue eq_refl) as (r' & Hr' & Hm & _ & _ & _ & Hafter).
  { set_solver. }
  exists r'. split; [exact Hr'|]. split; [exact Hm|exact Hafter].
Defined.



(** X14. [resolve_by_latest] is [resolve_by_release] at the version of the
    project's latest release, and [resolve] is [resolve_by_release] at the
    empty version. For an issue whose project is gone, [resolve_by_latest]
    raises [AttributeError] after it has set [is_resolved] and before it
    unmutes: a muted issue is left resolved and muted. *)
Theorem X14_resolve_by_latest issue p :
  (∀ prj v, project issue = Some prj → latest_release_version prj = Some v →
     IssueStateManager.resolve_by_latest (issue, p)
       = IssueStateManager.resolve_by_release v (issue, p))
  ∧ IssueStateManager.resolve (issue, p) = IssueStateManager.resolve_by_release "" (issue, p)
  ∧ (project issue = None →
       IssueStateManager.resolve_by_latest (issue, p)
         = (Raise AttributeError, (set_is_resolved true issue, p))
       ∧ is_muted (set_is_resolved true issue) = is_muted issue).
Proof.
  split; [|split; [reflexivity|]].
  - intros prj v Hprj Hv. unfold IssueStateManager.resolve_by_latest. monad.
    cbv beta iota zeta delta [fst snd]. cbn [project set_is_resolved].
    by rewrite Hprj, Hv.
  - intros Hprj. split; [|reflexivity].
    unfold IssueStateManager.resolve_by_latest. monad.
    cbv beta iota zeta delta [fst snd]. cbn [project set_is_resolved].
    by rewrite Hprj.
Qed.

(** The sample issue, whose project has a latest release. *)
Lemma X14_resolve_by_latest_witness :
  ∃ v, IssueStateManager.resolve_by_latest (Sample.open_issue, Sample.quiet_process)
       = IssueStateManager.resolve_by_release v (Sample.open_issue, Sample.quiet_process).
Proof.
  destruct (project Sample.open_issue) as [prj|] eqn:Hprj; [|discriminate Hprj].
  destruct (latest_release_version prj) as [v|] eqn:Hv.
  - exists v.
    exact (proj1 (X14_resolve_by_latest Sample.open_issue Sample.quiet_process) prj v Hprj Hv).
  - exists "". injection Hprj as <-. discriminate Hv.
Defined.

(** ** Event data *)

Lemma last_snoc {A} (l : list A) (x d : A) : List.last (l ++ [x]) d = x.
Proof.
  induction l as [|a l IH]; [reflexivity|].
  cbn [app List.last]. destruct (l ++ [x]) eqn:Heq; [by destruct l|exact IH].
Qed.

(** X15. [get_main_exception] on the parsed data of the first event: data
    without an [exception] entry, or with an empty list of values, give the
    empty dict; a list of values gives its last element, the last exception
    of the chain; an [exception] entry without [values] raises [KeyError];
    data that are no dict raise [AttributeError]. *)
Theorem X15_get_main_exception :
  (∀ items, EventData.lookup "exception" items = None →
     EventData.get_main_exception (EventData.JDict items) = inr (EventData.JDict []))
  ∧ (∀ items exc chain x,
       EventData.lookup "exception" items = Some (EventData.JDict exc) →
       EventData.lookup "values" exc = Some (EventData.JList (chain ++ [x])) →
       EventData.get_main_exception (EventData.JDict items) = inr x)
  ∧ (∀ items exc,
       EventData.lookup "exception" items = Some (EventData.JDict exc) →
       EventData.lookup "values" exc = Some (EventData.JList []) →
       EventData.get_main_exception (EventData.JDict items) = inr (EventData.JDict []))
  ∧ (∀ items exc,
       EventData.lookup "exception" items = Some (EventData.JDict exc) →
       EventData.lookup "values" exc = None →
       EventData.get_main_exception (EventData.JDict items) = inl (Raised KeyError))
  ∧ (∀ parsed_data, (∀ items, parsed_data ≠ EventData.JDict items) →
       EventData.get_main_exception parsed_data = inl (Raised AttributeError)).
Proof.
  unfold EventData.get_main_exception, EventData.get.
  split; [|split; [|split; [|split]]].
  - intros items ->. reflexivity.
  - intros items exc chain x -> . cbn [EventData.getitem]. intros ->.
    assert (EventData.truthy (EventData.JList (chain ++ [x])) = true) as ->
      by (by destruct chain).
    unfold EventData.getitem_last. rewrite map_app. cbn [map]. by rewrite last_snoc.
  - intros items exc ->. cbn [EventData.getitem]. by intros ->.
  - intros items exc ->. cbn [EventData.getitem]. by intros ->.
  - intros [| | | | | |items] Hnot; try reflexivity. by destruct (Hnot items).
Qed.

(** A chain of two exceptions: the second is the main one. *)
Lemma X15_get_main_exception_witness :
  EventData.get_main_exception
    (EventData.JDict
       [("exception",
         EventData.JDict
           [("values",
             EventData.JList
               [EventData.JDict [("type", EventData.JStr "KeyError")];
                EventData.JDict [("type", EventData.JStr "RuntimeError")]])])])
  = inr (EventData.JDict [("type", EventData.JStr "RuntimeError")]).
Proof.
  apply (proj1 (proj2 X15_get_main_exception) _
           [("values",
             EventData.JList
               [EventData.JDict [("type", EventData.JStr "KeyError")];
                EventData.JDict [("type", EventData.JStr "RuntimeError")]])]
           [EventData.JDict [("type", EventData.JStr "KeyError")]]);
    reflexivity.
Defined.

(** X16. [title]: for a main exception with a text as [type] and as [value]
    it is the type, a colon and a blank, and the value; a missing entry
    reads [none], so that data without an [exception] entry give
    [none: none]; an entry that is present but no text, such as a null
    [value], raises [TypeError]; and every title returned has the colon and
    the blank between two texts. *)
Theorem X16_title parsed_data :
  (∀ m, EventData.get_main_exception parsed_data = inr (EventData.JDict m) →
     let type := default (EventData.JStr "none") (EventData.lookup "type" m) in
     let value := default (EventData.JStr "none") (EventData.lookup "value" m) in
     EventData.title parsed_data =
       match type, value with
       | EventData.JStr t, EventData.JStr v => inr (t +:+ ": " +:+ v)
       | _, _ => inl (Raised TypeError)
       end)
  ∧ (∀ items, parsed_data = EventData.JDict items →
       EventData.lookup "exception" items = None →
       EventData.title parsed_data = inr "none: none")
  ∧ (∀ s, EventData.title parsed_data = inr s → ∃ t v, s = t +:+ ": " +:+ v).
Proof.
  assert (Hdict : ∀ m, EventData.get_main_exception parsed_data = inr (EventData.JDict m) →
     EventData.title parsed_data =
       match default (EventData.JStr "none") (EventData.lookup "type" m),
             default (EventData.JStr "none") (EventData.lookup "value" m) with
       | EventData.JStr t, EventData.JStr v => inr (t +:+ ": " +:+ v)
       | _, _ => inl (Raised TypeError)
       end).
  { intros m Hm. unfold EventData.title. rewrite Hm. cbn [EventData.get].
    unfold default.
    destruct (EventData.lookup "type" m) as [[| | | |t| |]|];
      destruct (EventData.lookup "value" m) as [[| | | |v| |]|];
      cbn [EventData.add_str]; try reflexivity; by rewrite string_app_assoc. }
  split; [exact Hdict|]. split.
  - intros items -> Hnone.
    rewrite (Hdict []); [reflexivity|].
    unfold EventData.get_main_exception, EventData.get. by rewrite Hnone.
  - intros s. unfold EventData.title.
    destruct (EventData.get_main_exception parsed_data) as [e|main]; [done|].
    destruct (EventData.get main "type" (EventData.JStr "none")) as [e|ty]; [done|].
    destruct ty as [| | | |t| |]; cbn [EventData.add_str]; try done.
    destruct (EventData.get main "value" (EventData.JStr "none")) as [e|value]; [done|].
    destruct value as [| | | |v| |]; cbn [EventData.add_str]; try done.
    intros [= <-]. exists t, v. by rewrite string_app_assoc.
Qed.

(** The title of an event whose main exception has a type and no value. *)
Lemma X16_title_witness :
  EventData.title
    (EventData.JDict
       [("exception",
         EventData.JDict
           [("values", EventData.JList [EventData.JDict [("type", EventData.JStr "KeyError")]])])])
  = inr "KeyError: none".
Proof.
  exact (proj1 (X16_title
    (EventData.JDict
       [("exception",
         EventData.JDict
           [("values", EventData.JList [EventData.JDict [("type", EventData.JStr "KeyError")]])])]))
    [("type", EventData.JStr "KeyError")] eq_refl).
Defined.

(** ** [MyProjectMembershipForm] *)

(** X17. [MyProjectMembershipForm.__init__]: without the keyword
    [edit_role] it raises [KeyError]; two team memberships of the user in
    the project's team raise [MultipleObjectsReturned], which the [try] does
    not catch; a field without choices raises [IndexError]. Otherwise the
    form has the field [role] exactly when [edit_role] is true, no field
    beyond [role] and [send_email_alerts], and the latter's empty label,
    also stored as its first choice under the value [unknown], reads
    [Team-default (currently: no)] when the user's team membership says no
    and [Team-default (currently: yes)] in every other case: when it says
    yes, says nothing, or does not exist. *)
Theorem X17_my_project_membership_form instance alerts role memberships :
  let mine := List.filter
    (λ tm, Z.eqb (MyProjectMembershipForm.team tm) (MyProjectMembershipForm.project_team instance)
           && Z.eqb (MyProjectMembershipForm.member tm) (MyProjectMembershipForm.user instance))
    memberships in
  MyProjectMembershipForm.__init__ None instance alerts role memberships = inl (Raised KeyError)
  ∧ (∀ edit_role, (2 ≤ length mine)%nat →
       MyProjectMembershipForm.__init__ (Some edit_role) instance alerts role memberships
         = inl MultipleObjectsReturned)
  ∧ (∀ edit_role, (length mine ≤ 1)%nat →
       MyProjectMembershipForm.widget_choices alerts = [] →
       MyProjectMembershipForm.__init__ (Some edit_role) instance alerts role memberships
         = inl IndexError)
  ∧ (∀ edit_role c rest, (length mine ≤ 1)%nat →
       MyProjectMembershipForm.widget_choices alerts = c :: rest →
       ∃ form label,
         MyProjectMembershipForm.__init__ (Some edit_role) instance alerts role memberships
           = inr form
         ∧ MyProjectMembershipForm.instance form = instance
         ∧ (∀ k, MyProjectMembershipForm.fields form !! k =
                 if String.eqb k "send_email_alerts"
                 then Some {| MyProjectMembershipForm.empty_label := Some label;
                              MyProjectMembershipForm.widget_choices := ("unknown", label) :: rest |}
                 else if String.eqb k "role" && edit_role then Some role else None)
         ∧ label = (if existsb (λ tm, bool_decide
                                  (MyProjectMembershipForm.send_email_alerts tm = Some false)) mine
                    then "Team-default (currently: no)"
                    else "Team-default (currently: yes)")).
Proof.
  cbv zeta. unfold MyProjectMembershipForm.__init__,
    MyProjectMembershipForm.team_send_email_alerts, MyProjectMembershipForm.objects_get.
  set (mine := List.filter _ memberships).
  assert (Hfields : ∀ (b : bool) new k,
    (<["send_email_alerts" := new]>
       (if negb b
        then delete "role" (<["role" := role]> (<["send_email_alerts" := alerts]> ∅))
        else <["role" := role]> (<["send_email_alerts" := alerts]> ∅))
       : gmap string MyProjectMembershipForm.Field) !! k
    = if String.eqb k "send_email_alerts" then Some new
      else if String.eqb k "role" && b then Some role else None).
  { intros b new k. destruct (String.eqb_spec k "send_email_alerts") as [->|Hk].
    - by rewrite lookup_insert_eq.
    - rewrite lookup_insert_ne by done.
      destruct (String.eqb_spec k "role") as [->|Hk']; destruct b; cbn [negb andb].
      + by rewrite lookup_insert_eq.
      + by rewrite lookup_delete_eq.
      + by rewrite !lookup_insert_ne.
      + rewrite lookup_delete_ne by done. by rewrite !lookup_insert_ne. }
  assert (Halerts : ∀ b : bool,
    (if negb b
     then delete "role" (<["role" := role]> (<["send_email_alerts" := alerts]> ∅))
     else <["role" := role]> (<["send_email_alerts" := alerts]> ∅)
     : gmap string MyProjectMembershipForm.Field) !! "send_email_alerts" = Some alerts).
  { intros [|]; cbn [negb].
    - rewrite lookup_insert_ne by done. by rewrite lookup_insert_eq.
    - rewrite lookup_delete_ne by done. rewrite lookup_insert_ne by done.
      by rewrite lookup_insert_eq. }
  split; [reflexivity|]. split; [|split].
  - intros b Hlen. destruct mine as [|tm [|tm' l]]; cbn in Hlen; try lia. reflexivity.
  - intros b Hlen Hempty.
    destruct mine as [|tm [|tm' l]]; cbn in Hlen; try lia; cbv beta iota zeta;
      rewrite Halerts, Hempty; reflexivity.
  - intros b c rest Hlen Hchoices.
    destruct mine as [|tm [|tm' l]]; cbn in Hlen; try lia; cbv beta iota zeta;
      rewrite Halerts, Hchoices; cbn [MyProjectMembershipForm.set_first].
    + eexists _, _. split; [reflexivity|]. split; [reflexivity|].
      split; [intros k; apply Hfields|]. reflexivity.
    + eexists _, _. split; [reflexivity|]. split; [reflexivity|].
      split; [intros k; apply Hfields|]. cbn [existsb].
      by destruct (MyProjectMembershipForm.send_email_alerts tm) as [[|]|].
Qed.

(** The form of a member without team membership, who may not edit the role. *)
Lemma X17_my_project_membership_form_witness :
  ∃ form label,
    MyProjectMembershipForm.__init__ (Some false)
      {| MyProjectMembershipForm.project_team := 1; MyProjectMembershipForm.user := 7 |}
      {| MyProjectMembershipForm.empty_label := None;
         MyProjectMembershipForm.widget_choices :=
           [("unknown", "Unknown"); ("true", "Yes"); ("false", "No")] |}
      {| MyProjectMembershipForm.empty_label := None;
         MyProjectMembershipForm.widget_choices := [] |}
      [] = inr form
    ∧ MyProjectMembershipForm.fields form !! "role" = None
    ∧ label = "Team-default (currently: yes)".
Proof.
  destruct (proj2 (proj2 (proj2 (X17_my_project_membership_form
      {| MyProjectMembershipForm.project_team := 1; MyProjectMembershipForm.user := 7 |}
      {| MyProjectMembershipForm.empty_label := None;
         MyProjectMembershipForm.widget_choices :=
           [("unknown", "Unknown"); ("true", "Yes"); ("false", "No")] |}
      {| MyProjectMembershipForm.empty_label := None;
         MyProjectMembershipForm.widget_choices := [] |}
      []))) false ("unknown", "Unknown") [("true", "Yes"); ("false", "No")])
    as (form & label & Hinit & _ & Hfields & Hlabel).
  - cbn. lia.
  - reflexivity.
  - exists form, label. split; [exact Hinit|]. split; [|exact Hlabel].
    by rewrite (Hfields "role").
Defined.

(** ** The runtime limit is not re-entrant *)

(** X18. A query executed inside an outer [limit_runtime] block: the query
    runs under the cursor's own limit of five seconds, counted from its own
    start, whatever the outer limit; when it returns, the rest of the block
    runs without any progress handler, the outer limit being gone; when the
    query raises, nothing after it runs. *)
Theorem X18_limit_runtime_not_reentrant {Query Params Result B : Type}
    (super_execute : Query → Params → M timed_sqlite_backend.Env Result)
    (seconds : float) (query : Query) (params : Params)
    (rest : Result → M timed_sqlite_backend.Env B) (e : timed_sqlite_backend.Env) :
  timed_sqlite_backend.with_ (timed_sqlite_backend.limit_runtime seconds)
    (r ← timed_sqlite_backend.execute super_execute query params; rest r) e
  = match super_execute query params (timed_sqlite_backend.limited e) with
    | (Return r, e1) =>
        match rest r (timed_sqlite_backend.released e1) with
        | (Return b, e2) => (Return b, timed_sqlite_backend.released e2)
        | (Raise ex, e2) => (Raise ex, e2)
        end
    | (Raise ex, e1) => (Raise ex, e1)
    end.
Proof.
  unfold timed_sqlite_backend.with_, timed_sqlite_backend.execute,
    timed_sqlite_backend.with_, timed_sqlite_backend.limit_runtime,
    timed_sqlite_backend.set_progress_handler.
  cbn [timed_sqlite_backend.before_yield timed_sqlite_backend.after_yield].
  monad. cbv beta iota zeta.
  change {| timed_sqlite_backend.progress_handler := _; timed_sqlite_backend.time_time := _ |}
    with (timed_sqlite_backend.limited e) at 1.
  destruct (super_execute query params (timed_sqlite_backend.limited e)) as [[r|ex] e1];
    [|reflexivity].
  cbv beta iota zeta.
  change {| timed_sqlite_backend.progress_handler := None;
            timed_sqlite_backend.time_time := timed_sqlite_backend.time_time e1 |}
    with (timed_sqlite_backend.released e1).
  by destruct (rest r (timed_sqlite_backend.released e1)) as [[b|ex] e2].
Qed.
